(** * OrdersBot: the Telegram front end of the order assistant (main.py)

    A shallow embedding of [main.py].  The chat transport, the agent
    runtime, the session store and the tool subprocess are external
    collaborators: every call into them is recorded in a trace together
    with its outcome, and the outcome (normal return or a raised
    exception) is chosen by an environment that sees the trace so far.
    Python objects with identity (the [SQLiteSession] handles) live in a
    heap of numbered references; [self.sessions] is a finite map from
    chat ids to those references. *)

From Stdlib Require Import Ascii String ZArith.
From stdpp Require Import gmap strings list fin_maps pretty.

Open Scope string_scope.
Open Scope list_scope.
Open Scope Z_scope.

(** ** Exceptions *)

(** The exception classes the program can meet.  [isinstance_Exception]
    tells the classes deriving from [Exception] from those that derive
    from [BaseException] only; [except Exception] catches the former. *)
Inductive exn : Type :=
  | RuntimeError (msg : string)
  | AttributeError (msg : string)
  | KeyError (key : string)
  | OtherException (cls : string)
  | KeyboardInterrupt
  | SystemExit
  | CancelledError
  | GeneratorExit.

Definition isinstance_Exception (e : exn) : bool :=
  match e with
  | RuntimeError _ | AttributeError _ | KeyError _ | OtherException _ => true
  | KeyboardInterrupt | SystemExit | CancelledError | GeneratorExit => false
  end.

Inductive outcome (A : Type) : Type :=
  | Ret (a : A)
  | Raise (e : exn).
Arguments Ret {A} a.
Arguments Raise {A} e.

(** ** Data *)

Record SQLiteSession : Type := mkSQLiteSession {
  session_id : string;
  db_path : string
}.

Record MCPServerStdio : Type := mkMCPServerStdio {
  mcp_name : string;
  mcp_command : string;
  mcp_args : list string;
  cache_tools_list : bool
}.

Record Agent : Type := mkAgent {
  agent_name : string;
  instructions : string;
  mcp_servers : list MCPServerStdio
}.

Inductive callback : Type :=
  | cb_start | cb_help_command | cb_reset_command | cb_handle_message.

Inductive filter_expr : Type :=
  | F_TEXT
  | F_COMMAND
  | F_and (f g : filter_expr)
  | F_not (f : filter_expr).

Inductive handler : Type :=
  | CommandHandler (command : string) (cb : callback)
  | MessageHandler (flt : filter_expr) (cb : callback).

Record Application : Type := mkApplication {
  app_token : string;
  app_handlers : list handler
}.

Record Message : Type := mkMessage {
  chat_id : Z;
  text : option string
}.

Record Update : Type := mkUpdate {
  message : option Message
}.

Inductive ChatAction : Type := TYPING.

Inductive level : Type := INFO | ERROR.

(** Calls into the external collaborators. *)
Inductive call : Type :=
  | SQLiteSession_new (sid path : string)
  | clear_session (session : nat)
  | send_action (chat : Z) (action : ChatAction)
  | reply_text (chat : Z) (txt : string) (parse_mode : option string)
  | Application_build (token : string)
  | app_initialize
  | app_start
  | updater_start_polling
  | stop_event_wait
  | updater_stop
  | app_stop
  | app_shutdown
  | MCPServerStdio_aenter (srv : MCPServerStdio)
  | MCPServerStdio_aexit (srv : MCPServerStdio).

(** What the trace records: a call with the exception it raised, if any;
    one run of the agent with its final output or its exception; a log
    record, with the exception attached by [logger.exception]. *)
Inductive event : Type :=
  | Called (c : call) (r : option exn)
  | Ran (a : Agent) (input : string) (session : nat) (r : outcome (option string))
  | Logged (lvl : level) (msg : string) (exc_info : option exn).

(** The environment decides, from the trace so far, how each external
    call ends. *)
Record Env : Type := mkEnv {
  ext_call : list event -> call -> option exn;
  runner_run : list event -> Agent -> string -> nat -> outcome (option string)
}.

(** The part of the process outside the bot object: the environment
    variables, the parsed [.env] file, the heap of session objects and
    the trace. *)
Record World : Type := mkWorld {
  environ : gmap string string;
  dotenv : gmap string string;
  heap : gmap nat SQLiteSession;
  next_ref : nat;
  trace : list event
}.

Record OrdersBot : Type := mkOrdersBot {
  telegram_token : string;
  mcp_server : MCPServerStdio;
  agent : Agent;
  sessions : gmap Z nat;
  application : option Application
}.

Record Sys : Type := mkSys {
  self : OrdersBot;
  world : World
}.

(** ** A state and exception monad *)

Definition M (S A : Type) : Type := S -> outcome A * S.

Definition ret {S A} (a : A) : M S A := fun s => (Ret a, s).

Definition raise {S A} (e : exn) : M S A := fun s => (Raise e, s).

Definition bind {S A B} (m : M S A) (k : A -> M S B) : M S B :=
  fun s =>
    match m s with
    | (Ret a, s') => k a s'
    | (Raise e, s') => (Raise e, s')
    end.

Notation "'let*' x ':=' c 'in' k" := (bind c (fun x => k))
  (at level 10, x name, c at level 100, k at level 200).
Notation "c >> k" := (bind c (fun _ => k))
  (at level 100, k at level 200, right associativity).

(** [try: body / except E: handler]: the clause [catches] selects the
    exceptions the handler is run for. *)
Definition try_except {S A} (body : M S A) (catches : exn -> bool)
    (handle : exn -> M S A) : M S A :=
  fun s =>
    match body s with
    | (Ret a, s') => (Ret a, s')
    | (Raise e, s') => if catches e then handle e s' else (Raise e, s')
    end.

(** [try: body / finally: fin]: [fin] always runs; an exception of
    [fin] replaces the outcome of [body]. *)
Definition try_finally {S A} (body : M S A) (fin : M S unit) : M S A :=
  fun s =>
    match body s with
    | (r, s') =>
        match fin s' with
        | (Ret _, s'') => (r, s'')
        | (Raise e, s'') => (Raise e, s'')
        end
    end.

Definition lift {A} (m : M World A) : M Sys A :=
  fun s =>
    match m (world s) with
    | (r, w) => (r, mkSys (self s) w)
    end.

Definition get_self : M Sys OrdersBot := fun s => (Ret (self s), s).

Definition with_sessions (b : OrdersBot) (m : gmap Z nat) : OrdersBot :=
  mkOrdersBot (telegram_token b) (mcp_server b) (agent b) m (application b).

Definition with_application (b : OrdersBot) (a : option Application) : OrdersBot :=
  mkOrdersBot (telegram_token b) (mcp_server b) (agent b) (sessions b) a.

Definition set_sessions (m : gmap Z nat) : M Sys unit :=
  fun s => (Ret tt, mkSys (with_sessions (self s) m) (world s)).

Definition set_application (a : option Application) : M Sys unit :=
  fun s => (Ret tt, mkSys (with_application (self s) a) (world s)).

Definition record (ev : event) (w : World) : World :=
  mkWorld (environ w) (dotenv w) (heap w) (next_ref w) (trace w ++ [ev]).

(** Python truthiness of a string. *)
Definition truthy (s : string) : bool :=
  match s with
  | EmptyString => false
  | String _ _ => true
  end.

(** [str(n)] for an [int]. *)
Definition str (n : Z) : string := pretty n.

(** The second argument of [os.getenv] and of [dict.get]. *)
Definition default_of {A} (o : option A) (d : A) : A :=
  match o with
  | Some a => a
  | None => d
  end.

Definition nl : string := String (ascii_of_nat 10) EmptyString.
Definition dq : string := String (ascii_of_nat 34) EmptyString.

Section Program.

Variable env : Env.

(** [str.strip] of the Python library. *)
Variable strip : string -> string.

(** *** External calls *)

Definition extern (c : call) : M World unit :=
  fun w =>
    match ext_call env (trace w) c with
    | None => (Ret tt, record (Called c None) w)
    | Some e => (Raise e, record (Called c (Some e)) w)
    end.

Definition Runner_run (a : Agent) (input : string) (session : nat)
    : M World (option string) :=
  fun w =>
    let r := runner_run env (trace w) a input session in
    (r, record (Ran a input session r) w).

Definition logger_info (msg : string) : M World unit :=
  fun w => (Ret tt, record (Logged INFO msg None) w).

(** [logger.exception] logs at level ERROR with the exception being
    handled. *)
Definition logger_exception (msg : string) (e : exn) : M World unit :=
  fun w => (Ret tt, record (Logged ERROR msg (Some e)) w).

(** [SQLiteSession(sid, path)]: a new object at a new reference. *)
Definition new_SQLiteSession (sid path : string) : M World nat :=
  extern (SQLiteSession_new sid path) >>
  fun w =>
    let r := next_ref w in
    (Ret r,
     mkWorld (environ w) (dotenv w)
             (<[r := mkSQLiteSession sid path]> (heap w)) (S r) (trace w)).

(** *** OrdersBot._get_session *)

Definition _get_session (chat_id : Z) : M Sys nat :=
  let* b := get_self in
  (match sessions b !! chat_id with
   | None =>
       let* r := lift (new_SQLiteSession (str chat_id) "sessions.db") in
       let* b' := get_self in
       set_sessions (<[chat_id := r]> (sessions b'))
   | Some _ => ret tt
   end) >>
  let* b := get_self in
  match sessions b !! chat_id with
  | Some r => ret r
  | None => raise (KeyError (str chat_id))
  end.

(** *** Command handlers *)

Definition start_text : string :=
  "Ciao! 👋 Sono il tuo assistente ordini." +:+ nl +:+ nl +:+
  "Puoi scrivere cose come:" +:+ nl +:+
  "- *Inserisci un nuovo ordine per il cliente 1234 con consegna il 20/11*" +:+ nl +:+
  "- *Mostrami lo stato dell'ordine 5678*" +:+ nl +:+
  "- *Che prezzi abbiamo per l'articolo ABC123?*" +:+ nl +:+ nl +:+
  "Scrivi in linguaggio naturale e penserò io a parlare con il gestionale. 😉".

Definition help_text : string :=
  "Posso aiutarti a:" +:+ nl +:+
  "- Inserire nuovi ordini" +:+ nl +:+
  "- Consultare lo stato avanzamento ordini" +:+ nl +:+
  "- Recuperare informazioni commerciali (prezzi, sconti, disponibilità)" +:+ nl +:+ nl +:+
  "Dimmi semplicemente cosa ti serve, ad esempio:" +:+ nl +:+
  "*Vorrei inserire un ordine per il cliente 90017863 per 10 pezzi di MP002.*".

Definition reset_text : string :=
  "✅ Ho azzerato la memoria della conversazione per questa chat.".

Definition fallback_text : string :=
  "Non ho ottenuto alcuna risposta dall'agent.".

Definition apology_text : string :=
  "❌ Mi spiace, ho avuto un errore interno mentre processavo la tua richiesta.".

(** [update.message.reply_text(...)]: an attribute access on [None]
    raises [AttributeError]. *)
Definition message_reply_text (update : Update) (txt : string)
    (parse_mode : option string) : M Sys unit :=
  match message update with
  | None => raise (AttributeError "'NoneType' object has no attribute 'reply_text'")
  | Some m => lift (extern (reply_text (chat_id m) txt parse_mode))
  end.

Definition start (update : Update) : M Sys unit :=
  message_reply_text update start_text (Some "Markdown").

Definition help_command (update : Update) : M Sys unit :=
  message_reply_text update help_text (Some "Markdown").

Definition reset_command (update : Update) : M Sys unit :=
  match message update with
  | None => ret tt
  | Some m =>
      let chat := chat_id m in
      let* b := get_self in
      (match sessions b !! chat with
       | Some session =>
           lift (extern (clear_session session)) >>
           let* b' := get_self in
           set_sessions (delete chat (sessions b'))
       | None => ret tt
       end) >>
      message_reply_text update reset_text None
  end.

(** *** OrdersBot.handle_message *)

(** [result.final_output or "..."] *)
Definition final_output_or (final_output : option string) (default : string)
    : string :=
  match final_output with
  | Some s => if truthy s then s else default
  | None => default
  end.

Definition handle_message (update : Update) : M Sys unit :=
  match message update with
  | None => ret tt
  | Some m =>
      match text m with
      | None => ret tt
      | Some t =>
          if negb (truthy t) then ret tt
          else
            let user_message := strip t in
            let chat := chat_id m in
            lift (logger_info ("Messaggio da " +:+ str chat +:+ ": " +:+ user_message)) >>
            lift (extern (send_action chat TYPING)) >>
            try_except
              (let* session := _get_session chat in
               let* b := get_self in
               let* final_output := lift (Runner_run (agent b) user_message session) in
               let reply := final_output_or final_output fallback_text in
               message_reply_text update reply (Some "Markdown"))
              isinstance_Exception
              (fun e =>
                 lift (logger_exception "Errore durante l'elaborazione del messaggio" e) >>
                 message_reply_text update apology_text None)
      end
  end.

(** *** OrdersBot.__init__ *)

(** [load_dotenv()] adds the variables of the [.env] file that the
    environment does not define yet (no override). *)
Definition load_dotenv : M World unit :=
  fun w =>
    (Ret tt,
     mkWorld (environ w ∪ dotenv w) (dotenv w) (heap w) (next_ref w) (trace w)).

Definition os_getenv (key : string) : M World (option string) :=
  fun w => (Ret (environ w !! key), w).

Definition os_getenv_default (key default : string) : M World string :=
  fun w => (Ret (default_of (environ w !! key) default), w).

Definition agent_instructions : string :=
  "Sei un assistente per la gestione ordini via Telegram." +:+ nl +:+
  "- Parli in italiano." +:+ nl +:+
  "- PER USARE I SERVIZI REST devi usare il tool MCP 'call_rest_service' con " +:+
  "il parametro `service_name` che corrisponde ESATTAMENTE a uno dei seguenti nomi:" +:+ nl +:+
  "  * create_order  -> per inserire un nuovo ordine" +:+ nl +:+
  "  * get_order     -> per leggere il dettaglio di un ordine" +:+ nl +:+
  "  * get_orders    -> per leggere una lista di ordini" +:+ nl +:+
  "  * get_price_list -> per leggere i prezzi" +:+ nl +:+
  "- Prima di chiamare `call_rest_service`, se hai dubbi, usa il tool MCP " +:+
  "  `list_rest_services` e scegli `service_name` dalla lista." +:+ nl +:+
  "- Quando l'utente chiede prezzi, listini, costi degli articoli, " +:+
  "  DEVI chiamare `call_rest_service` con:" +:+ nl +:+
  "    service_name = " +:+ dq +:+ "get_price_list" +:+ dq +:+ nl +:+
  "    arguments.customer_code = codice cliente (se noto)" +:+ nl +:+
  "    arguments.article_code  = codice articolo (se chiede un articolo specifico)" +:+ nl +:+
  "- Se il risultato contiene prezzi generici (customer_id=null), " +:+
  "- Se l'utente dice 'inserisci un ordine', mappa internamente questa intenzione " +:+
  "  al servizio `create_order`." +:+ nl.

Definition token_error : exn :=
  RuntimeError "TELEGRAM_BOT_TOKEN non impostato nelle variabili d'ambiente".

Definition OrdersBot_init (mcp_server : MCPServerStdio) : M World OrdersBot :=
  load_dotenv >>
  let* telegram_token := os_getenv "TELEGRAM_BOT_TOKEN" in
  match telegram_token with
  | None => raise token_error
  | Some tok =>
      if negb (truthy tok) then raise token_error
      else
        ret (mkOrdersBot tok mcp_server
               (mkAgent "OrderAssistant" agent_instructions [mcp_server])
               ∅ None)
  end.

(** *** OrdersBot.run *)

Definition none_has_no (attr : string) : exn :=
  AttributeError ("'NoneType' object has no attribute '" +:+ attr +:+ "'").

Definition add_handler (h : handler) : M Sys unit :=
  let* b := get_self in
  match application b with
  | Some a => set_application (Some (mkApplication (app_token a) (app_handlers a ++ [h])))
  | None => raise (none_has_no "add_handler")
  end.

Definition is_interrupt (e : exn) : bool :=
  match e with
  | KeyboardInterrupt | SystemExit => true
  | _ => false
  end.

Definition shutdown_sequence : M Sys unit :=
  lift (extern updater_stop) >>
  lift (extern app_stop) >>
  lift (extern app_shutdown) >>
  lift (logger_info "Bot terminato correttamente.").

Definition run : M Sys unit :=
  lift (logger_info "Inizializzo OrdersBot...") >>
  let* b := get_self in
  (match application b with
   | None =>
       lift (extern (Application_build (telegram_token b))) >>
       set_application (Some (mkApplication (telegram_token b) [])) >>
       add_handler (CommandHandler "start" cb_start) >>
       add_handler (CommandHandler "help" cb_help_command) >>
       add_handler (CommandHandler "reset" cb_reset_command) >>
       add_handler (MessageHandler (F_and F_TEXT (F_not F_COMMAND)) cb_handle_message)
   | Some _ => ret tt
   end) >>
  let* b := get_self in
  match application b with
  | None => raise (none_has_no "initialize")
  | Some _ =>
      lift (extern app_initialize) >>
      lift (extern app_start) >>
      lift (extern updater_start_polling) >>
      lift (logger_info "Bot in esecuzione (polling)…") >>
      try_finally
        (try_except
           (lift (extern stop_event_wait))
           is_interrupt
           (fun _ => lift (logger_info "Ricevuto segnale di stop, chiusura in corso…")))
        shutdown_sequence
  end.

(** *** main *)

(** Runs a method of the bot object [b]; the object is local to
    [main]. *)
Definition with_self {A} (b : OrdersBot) (m : M Sys A) : M World A :=
  fun w =>
    match m (mkSys b w) with
    | (r, s) => (r, world s)
    end.

(** [async with MCPServerStdio(...) as srv: body]: the exit runs on
    every way out of the body and does not swallow its exception. *)
Definition async_with {A} (srv : MCPServerStdio) (body : MCPServerStdio -> M World A)
    : M World A :=
  extern (MCPServerStdio_aenter srv) >>
  try_finally (body srv) (extern (MCPServerStdio_aexit srv)).

(** The body of the [async with] block of [main]. *)
Definition main_with_server (orders_mcp_server : MCPServerStdio) : M World unit :=
  logger_info "MCP server avviato, creo il bot OrdersBot..." >>
  let* bot := OrdersBot_init orders_mcp_server in
  try_finally
    (try_except
       (with_self bot run)
       isinstance_Exception
       (fun e => logger_exception "Il bot si è fermato a causa di un errore" e))
    (logger_info "Chiusura OrdersBot completata.").

Definition main : M World unit :=
  load_dotenv >>
  let* mcp_command := os_getenv_default "ORDERS_MCP_COMMAND" "python" in
  let* mcp_script := os_getenv_default "ORDERS_MCP_SCRIPT" "orders_mcp_server.py" in
  logger_info ("Avvio MCPServerStdio: " +:+ mcp_command +:+ " " +:+ mcp_script) >>
  async_with
    (mkMCPServerStdio "Orders MCP Server" mcp_command [mcp_script] true)
    main_with_server.

(** *** The operations on a running bot *)

Inductive op : Type :=
  | Op_get_session (chat : Z)
  | Op_start (update : Update)
  | Op_help (update : Update)
  | Op_reset (update : Update)
  | Op_message (update : Update).

Definition exec_op (o : op) : M Sys unit :=
  match o with
  | Op_get_session chat => _get_session chat >> ret tt
  | Op_start u => start u
  | Op_help u => help_command u
  | Op_reset u => reset_command u
  | Op_message u => handle_message u
  end.

(** The state an operation leaves, whether it returned or raised. *)
Definition step (s : Sys) (o : op) : Sys := snd (exec_op o s).

Definition steps (ops : list op) (s : Sys) : Sys := fold_left step ops s.

(** The states of a constructed bot after any number of operations. *)
Inductive reachable : Sys -> Prop :=
  | reachable_init mcp w b w' :
      OrdersBot_init mcp w = (Ret b, w') -> reachable (mkSys b w')
  | reachable_step s o :
      reachable s -> reachable (step s o).

End Program.

(** ** Vocabulary of the statements *)

(** The events a computation adds to the trace. *)
Definition emitted (w w' : World) (evs : list event) : Prop :=
  trace w' = trace w ++ evs.

(** How a call that raised [o] ends. *)
Definition outcome_of (o : option exn) : outcome unit :=
  match o with
  | None => Ret tt
  | Some e => Raise e
  end.

(** A computation only adds events at the end of the trace. *)
Definition extends {S A} (tr : S -> list event) (m : M S A) : Prop :=
  forall s, exists evs, tr (snd (m s)) = tr s ++ evs.

(** The state after [_get_session] has created the session of [chat]. *)
Definition created (chat : Z) (s : Sys) : Sys :=
  let w := world s in
  let r := next_ref w in
  mkSys (with_sessions (self s) (<[chat := r]> (sessions (self s))))
        (mkWorld (environ w) (dotenv w)
           (<[r := mkSQLiteSession (str chat) "sessions.db"]> (heap w)) (S r)
           (trace w ++ [Called (SQLiteSession_new (str chat) "sessions.db") None])).

(** An update carries no text: no message, no text or an empty text. *)
Definition without_text (u : Update) : Prop :=
  message u = None \/
  exists m, message u = Some m /\ (text m = None \/ text m = Some EmptyString).

(** A session object is alive when the registry refers to it. *)
Definition live (s : Sys) (r : nat) : Prop :=
  exists chat, sessions (self s) !! chat = Some r.

(** [r] is a live session bound to the conversation [chat]. *)
Definition session_of (s : Sys) (chat : Z) (r : nat) : Prop :=
  live s r /\
  exists o, heap (world s) !! r = Some o /\ session_id o = str chat.

(** What the registry guarantees about the handles it holds. *)
Definition registry_ok (s : Sys) : Prop :=
  forall chat r,
    sessions (self s) !! chat = Some r ->
    heap (world s) !! r = Some (mkSQLiteSession (str chat) "sessions.db") /\
    (r < next_ref (world s))%nat.

(** [o] is a [/reset] of the conversation [chat]. *)
Definition resets (chat : Z) (o : op) : bool :=
  match o with
  | Op_reset u =>
      match message u with
      | Some m => bool_decide (chat_id m = chat)
      | None => false
      end
  | _ => false
  end.

(** The calls of the chat transport, and the events that are chat
    activity: a transport call or a run of the agent. *)
Definition is_chat_call (c : call) : bool :=
  match c with
  | send_action _ _ | reply_text _ _ _ | Application_build _
  | app_initialize | app_start | updater_start_polling | stop_event_wait
  | updater_stop | app_stop | app_shutdown => true
  | SQLiteSession_new _ _ | clear_session _
  | MCPServerStdio_aenter _ | MCPServerStdio_aexit _ => false
  end.

Definition chat_activity (ev : event) : bool :=
  match ev with
  | Called c _ => is_chat_call c
  | Ran _ _ _ _ => true
  | Logged _ _ _ => false
  end.

Definition is_shutdown_call (ev : event) : bool :=
  match ev with
  | Called updater_stop _ | Called app_stop _ | Called app_shutdown _ => true
  | _ => false
  end.

(** The log line of the [except (KeyboardInterrupt, SystemExit)] clause
    of [run], for a wait that ended with [o]. *)
Definition interrupt_log (o : option exn) : list event :=
  match o with
  | Some e =>
      if is_interrupt e
      then [Logged INFO "Ricevuto segnale di stop, chiusura in corso…" None]
      else []
  | None => []
  end.

(** The events of the [finally] block of [run]: the three steps in
    order, each one run when the one before returned. *)
Inductive shutdown_run : list event -> Prop :=
  | shutdown_stops_at_updater e :
      shutdown_run [Called updater_stop (Some e)]
  | shutdown_stops_at_app e :
      shutdown_run [Called updater_stop None; Called app_stop (Some e)]
  | shutdown_stops_at_release e :
      shutdown_run [Called updater_stop None; Called app_stop None;
                    Called app_shutdown (Some e)]
  | shutdown_complete :
      shutdown_run [Called updater_stop None; Called app_stop None;
                    Called app_shutdown None;
                    Logged INFO "Bot terminato correttamente." None].

(** How an operation may change the registry: not at all, by adding
    the new session of a conversation that had none, or, for a [/reset],
    by removing the entry of its conversation. *)
Inductive registry_change (o : op) (s s' : Sys) : Prop :=
  | registry_unchanged :
      self s' = self s ->
      heap (world s') = heap (world s) ->
      next_ref (world s') = next_ref (world s) ->
      registry_change o s s'
  | registry_added chat :
      sessions (self s) !! chat = None ->
      self s' = with_sessions (self s) (<[chat := next_ref (world s)]> (sessions (self s))) ->
      heap (world s') =
        <[next_ref (world s) := mkSQLiteSession (str chat) "sessions.db"]> (heap (world s)) ->
      next_ref (world s') = S (next_ref (world s)) ->
      registry_change o s s'
  | registry_removed u m :
      o = Op_reset u ->
      message u = Some m ->
      self s' = with_sessions (self s) (delete (chat_id m) (sessions (self s))) ->
      heap (world s') = heap (world s) ->
      next_ref (world s') = next_ref (world s) ->
      registry_change o s s'.

Definition is_reply (ev : event) : bool :=
  match ev with
  | Called (reply_text _ _ _) _ => true
  | _ => false
  end.

(** ** Concrete inputs *)

(** [str.strip] on text that neither starts nor ends with a white space
    character outside ASCII. *)
Definition is_space (a : ascii) : bool :=
  let n := nat_of_ascii a in
  ((9 <=? n) && (n <=? 13) || (28 <=? n) && (n <=? 32))%nat.

Fixpoint lstrip (s : string) : string :=
  match s with
  | EmptyString => EmptyString
  | String a s' => if is_space a then lstrip s' else s
  end.

Fixpoint rstrip (s : string) : string :=
  match s with
  | EmptyString => EmptyString
  | String a s' =>
      match rstrip s' with
      | EmptyString => if is_space a then EmptyString else String a EmptyString
      | t => String a t
      end
  end.

Definition strip_ascii (s : string) : string := rstrip (lstrip s).

(** Every call returns and the agent ends as [r]. *)
Definition env_agent (r : outcome (option string)) : Env :=
  mkEnv (fun _ _ => None) (fun _ _ _ _ => r).

(** The calls selected by [bad] raise [e]; the others return. *)
Definition env_failing (bad : call -> bool) (e : exn) : Env :=
  mkEnv (fun _ c => if bad c then Some e else None)
        (fun _ _ _ _ => Ret (Some "Ecco i prezzi richiesti.")).

Definition is_initialize (c : call) : bool :=
  match c with
  | app_initialize => true
  | _ => false
  end.

Definition srv0 : MCPServerStdio :=
  mkMCPServerStdio "Orders MCP Server" "python" ["orders_mcp_server.py"] true.

Definition world0 : World :=
  mkWorld {["TELEGRAM_BOT_TOKEN" := "123:abc"]} ∅ ∅ 0 [].

Definition bot0 : OrdersBot :=
  mkOrdersBot "123:abc" srv0 (mkAgent "OrderAssistant" agent_instructions [srv0]) ∅ None.

Definition sys0 : Sys := mkSys bot0 world0.

Definition update42 (t : string) : Update :=
  mkUpdate (Some (mkMessage 42 (Some t))).

Definition price_question : string := "Che prezzi abbiamo per l'articolo ABC123?".

(** The environment of an ordinary run: every call returns and the
    agent answers. *)
Definition env0 : Env := env_agent (Ret (Some "Ecco i prezzi richiesti.")).

Definition is_wait (c : call) : bool :=
  match c with
  | stop_event_wait => true
  | _ => false
  end.

(** The bot after the price question of conversation 42. *)
Definition sys1 : Sys :=
  step env0 strip_ascii sys0 (Op_message (update42 price_question)).

(** A process environment without the token. *)
Definition world_without_token : World :=
  mkWorld {["ORDERS_MCP_COMMAND" := "python3"]} ∅ ∅ 0 [].

Definition update7 (t : string) : Update :=
  mkUpdate (Some (mkMessage 7 (Some t))).

(** Traffic of conversations 7 and 42 without a [/reset] of 42. *)
Definition traffic : list op :=
  [Op_message (update7 "Mostrami lo stato dell'ordine 5678");
   Op_reset (update7 "/reset");
   Op_start (update42 "/start");
   Op_get_session 42;
   Op_message (update42 "Grazie");
   Op_help (update7 "/help")].

(** The polling wait is cancelled. *)
Definition env_cancelled : Env := env_failing is_wait CancelledError.

(** The transport cannot be initialised. *)
Definition env_no_network : Env :=
  env_failing is_initialize (OtherException "NetworkError").

(** More vocabulary, for the statements about the handlers, [run] and
    [main] that follow the registry ones. *)

Definition is_run (ev : event) : bool :=
  match ev with
  | Ran _ _ _ _ => true
  | _ => false
  end.

Definition is_clear (ev : event) : bool :=
  match ev with
  | Called (clear_session _) _ => true
  | _ => false
  end.

(** Every message or chat action of the event goes to [chat]. *)
Definition to_chat (chat : Z) (ev : event) : bool :=
  match ev with
  | Called (send_action c _) _ | Called (reply_text c _ _) _ => bool_decide (c = chat)
  | _ => true
  end.

(** The calls of [run] before the polling wait. *)
Definition is_startup_call (c : call) : bool :=
  match c with
  | Application_build _ | app_initialize | app_start | updater_start_polling => true
  | _ => false
  end.

Definition is_build (ev : event) : bool :=
  match ev with
  | Called (Application_build _) _ => true
  | _ => false
  end.

(** The wait and everything [run] does after it. *)
Definition after_startup (ev : event) : bool :=
  match ev with
  | Called stop_event_wait _ => true
  | _ => is_shutdown_call ev
  end.

(** The handlers [run] registers, in order. *)
Definition registered_handlers : list handler :=
  [CommandHandler "start" cb_start;
   CommandHandler "help" cb_help_command;
   CommandHandler "reset" cb_reset_command;
   MessageHandler (F_and F_TEXT (F_not F_COMMAND)) cb_handle_message].

(** The first log line of [handle_message]. *)
Definition inbound_log (m : Message) (stripped : string) : event :=
  Logged INFO ("Messaggio da " +:+ str (chat_id m) +:+ ": " +:+ stripped) None.

Definition error_log (e : exn) : event :=
  Logged ERROR "Errore durante l'elaborazione del messaggio" (Some e).

(** More environments: one collaborator fails, the others answer. *)

Definition is_typing (c : call) : bool :=
  match c with
  | send_action _ _ => true
  | _ => false
  end.

Definition is_markdown_reply (c : call) : bool :=
  match c with
  | reply_text _ _ (Some _) => true
  | _ => false
  end.

Definition is_new_session (c : call) : bool :=
  match c with
  | SQLiteSession_new _ _ => true
  | _ => false
  end.

Definition env_no_typing : Env :=
  env_failing is_typing (OtherException "NetworkError").

Definition env_bad_markdown : Env :=
  env_failing is_markdown_reply (OtherException "BadRequest").

Definition env_no_store : Env :=
  env_failing is_new_session (OtherException "OperationalError").

Definition env_agent_cancelled : Env := env_agent (Raise CancelledError).

(** A text of white space only. *)
Definition blank_update : Update := update42 "   ".

(** The handler on the price question of conversation 42, in a fresh
    bot, under each of these environments. *)
Definition asked (env : Env) : outcome unit * Sys :=
  handle_message env strip_ascii (update42 price_question) sys0.

(** The events of a computation that started with an empty trace. *)
Definition events_of (res : outcome unit * Sys) : list event :=
  trace (world (snd res)).

(** The session store refuses to clear. *)
Definition is_clear_call (c : call) : bool :=
  match c with
  | clear_session _ => true
  | _ => false
  end.

Definition env_store_locked : Env :=
  env_failing is_clear_call (OtherException "OperationalError").

(** The bot after the price question of conversation 42 and a question
    of conversation 7: two registered conversations. *)
Definition sys2 : Sys :=
  step env0 strip_ascii sys1
    (Op_message (update7 "Mostrami lo stato dell'ordine 5678")).

(** The states of the bot object along the life of the process: the
    constructed bot, then any number of operations and of calls of
    [run]. *)
Inductive started (env : Env) (strip : string -> string) : Sys -> Prop :=
  | started_init srv w b w' :
      OrdersBot_init srv w = (Ret b, w') -> started env strip (mkSys b w')
  | started_step s o :
      started env strip s -> started env strip (step env strip s o)
  | started_run s :
      started env strip s -> started env strip (snd (run env s)).

(** The bot [sys2] once [run] has built its application. *)
Definition sys3 : Sys := snd (run env0 sys2).

(** ** Proofs *)

Ltac unfold_m :=
  unfold message_reply_text, new_SQLiteSession, Runner_run, logger_info,
    logger_exception, extern, set_sessions, set_application, get_self, lift,
    try_except, try_finally, bind, ret, raise, record in *.

Lemma app_self_nil {A} (l e : list A) : l = l ++ e -> e = [].
Proof.
  intros H. rewrite <- (app_nil_r l) in H at 1.
  apply app_inv_head in H. done.
Qed.

(** From [trace w' = trace w ++ evs], with the left side computed, to
    the list [evs] itself. *)
Ltac new_events H :=
  unfold emitted in H; simpl in H; rewrite <- ?app_assoc in H; simpl in H;
  first [ apply app_self_nil in H | apply app_inv_head in H ];
  subst.

(** One case split on what the environment answers in [H]. *)
Ltac step_env H :=
  match type of H with
  | context [ext_call ?e ?t ?c] =>
      let o := fresh "o" in
      let E := fresh "E" in
      destruct (ext_call e t c) as [o|] eqn:E; simpl in H
  | context [runner_run ?e ?t ?a ?i ?r] =>
      let o := fresh "o" in
      let E := fresh "E" in
      destruct (runner_run e t a i r) as [o|o] eqn:E; simpl in H
  | context [isinstance_Exception ?e] =>
      let E := fresh "E" in
      destruct (isinstance_Exception e) eqn:E; simpl in H
  | context [is_interrupt ?e] =>
      let E := fresh "E" in
      destruct (is_interrupt e) eqn:E; simpl in H
  end.

(** Looks for the prefix of a concrete list after which [tac] closes
    the goal. *)
Ltac split_around tac :=
  first [ exists []; solve [tac] | eexists [_]; solve [tac]
        | eexists [_; _]; solve [tac] | eexists [_; _; _]; solve [tac]
        | eexists [_; _; _; _]; solve [tac]
        | eexists [_; _; _; _; _]; solve [tac] ].

Section Handlers.

Variable env : Env.
Variable strip : string -> string.

Lemma get_session_present chat s r :
  sessions (self s) !! chat = Some r ->
  _get_session env chat s = (Ret r, s).
Proof.
  intros H. unfold _get_session. unfold_m. rewrite H. simpl. rewrite H.
  by destruct s.
Qed.

Lemma get_session_absent chat s :
  sessions (self s) !! chat = None ->
  _get_session env chat s =
    match ext_call env (trace (world s)) (SQLiteSession_new (str chat) "sessions.db") with
    | Some e =>
        (Raise e,
         mkSys (self s)
           (record (Called (SQLiteSession_new (str chat) "sessions.db") (Some e))
              (world s)))
    | None => (Ret (next_ref (world s)), created chat s)
    end.
Proof.
  intros H. unfold _get_session. unfold_m. rewrite H. simpl.
  destruct (ext_call _ _ _); simpl; [done|].
  rewrite lookup_insert_eq. done.
Qed.

Lemma truthy_nonempty t : truthy t = true <-> t <> EmptyString.
Proof. destruct t; simpl; split; congruence. Qed.

Lemma final_output_or_nonempty fo d : d <> EmptyString -> final_output_or fo d <> EmptyString.
Proof.
  intros Hd. unfold final_output_or. destruct fo as [t|]; [|done].
  destruct (truthy t) eqn:Ht; [|done]. by apply truthy_nonempty.
Qed.

Lemma fallback_text_nonempty : fallback_text <> EmptyString.
Proof. discriminate. Qed.

(** *** C9 *)

(** C9: for an update without a message, or whose message has no text
    or an empty text, [handle_message] returns at once: no reply is
    sent, the agent is not run and nothing changes, neither the
    registry nor the trace. *)
Theorem handle_message_without_text u s :
  without_text u ->
  handle_message env strip u s = (Ret tt, s).
Proof.
  intros [Hm | (m & Hm & [Ht | Ht])]; unfold handle_message;
    rewrite Hm; try rewrite Ht; done.
Qed.

(** *** C4 and C1: what [handle_message] does with the agent's answer *)

(** The first steps of [handle_message] on a message with text. *)
Ltac enter_handle_message Hrun Hev Hin :=
  unfold handle_message in Hrun;
  destruct (message _) as [m|] eqn:Hm;
    [| injection Hrun as <- <-; new_events Hev; destruct Hin];
  destruct (text m) as [t|] eqn:Ht;
    [| injection Hrun as <- <-; new_events Hev; destruct Hin];
  destruct (truthy t) eqn:Htruthy; simpl in Hrun;
    [| injection Hrun as <- <-; new_events Hev; destruct Hin];
  unfold_m; simpl in Hrun; rewrite ?Hm in Hrun;
  step_env Hrun;
    [injection Hrun as <- <-; new_events Hev; simpl in Hin;
     intuition discriminate |];
  match type of Hrun with
  | context [_get_session env ?c ?st] =>
      destruct (sessions (self st) !! c) as [r0|] eqn:Hs;
        [ rewrite (get_session_present c st r0 Hs) in Hrun
        | rewrite (get_session_absent c st Hs) in Hrun; simpl in Hrun;
          step_env Hrun ]
  end;
  simpl in Hrun; repeat step_env Hrun;
  injection Hrun as <- <-; new_events Hev; simpl in Hin.

(** C4: whenever the agent was run for an inbound text message and
    returned, the next thing the handler does is to reply, in Markdown
    mode, with the agent's final output; when that output is absent or
    empty the reply is the fixed fallback text, so the reply is never
    empty. *)
Theorem handle_message_relays_final_output u s out s' evs a i r fo :
  handle_message env strip u s = (out, s') ->
  emitted (world s) (world s') evs ->
  In (Ran a i r (Ret fo)) evs ->
  exists m t reply pre o post,
    message u = Some m /\ text m = Some t /\
    a = agent (self s) /\ i = strip t /\
    evs = pre ++ [Ran a i r (Ret fo);
                  Called (reply_text (chat_id m) reply (Some "Markdown")) o] ++ post /\
    (forall answer, fo = Some answer -> answer <> EmptyString -> reply = answer) /\
    (fo = None \/ fo = Some EmptyString -> reply = fallback_text) /\
    reply <> EmptyString.
Proof.
  intros Hrun Hev Hin.
  enter_handle_message Hrun Hev Hin.
  all: intuition (try discriminate); simplify_eq.
  all: exists m, t, (final_output_or fo fallback_text).
  all: split_around ltac:(
    do 2 eexists; repeat split; try reflexivity; try assumption;
    [ intros answer -> Hne; simpl; by apply truthy_nonempty in Hne as ->
    | by intros [-> | ->]
    | apply final_output_or_nonempty, fallback_text_nonempty ]).
Qed.

(** C1, as the code has it: when the agent run raises an exception that
    is an instance of [Exception], the handler logs it with
    [logger.exception] and then replies with exactly the fixed apology
    text, without parse mode; the agent's exception goes no further:
    the handler ends the way the sending of the apology ends, normally
    when it returns; the session stays registered.  ([except Exception]
    does not catch the other exceptions: [KeyboardInterrupt],
    [SystemExit], [asyncio.CancelledError].) *)
Theorem handle_message_agent_exception u s out s' evs a i r e :
  handle_message env strip u s = (out, s') ->
  emitted (world s) (world s') evs ->
  In (Ran a i r (Raise e)) evs ->
  isinstance_Exception e = true ->
  exists m pre o,
    message u = Some m /\
    evs = pre ++ [Ran a i r (Raise e);
                  Logged ERROR "Errore durante l'elaborazione del messaggio" (Some e);
                  Called (reply_text (chat_id m) apology_text None) o] /\
    out = outcome_of o /\
    sessions (self s') !! chat_id m = Some r.
Proof.
  intros Hrun Hev Hin Hexc.
  enter_handle_message Hrun Hev Hin.
  all: intuition (try discriminate); simplify_eq.
  all: try congruence.
  all: exists m.
  all: split_around ltac:(
    eexists; repeat split; try reflexivity; try assumption;
    simpl; by rewrite ?lookup_insert_eq).
Qed.

(** *** The effect of the operations on the registry *)

Lemma message_reply_text_self u txt pm s :
  self (snd (message_reply_text env u txt pm s)) = self s /\
  heap (world (snd (message_reply_text env u txt pm s))) = heap (world s) /\
  next_ref (world (snd (message_reply_text env u txt pm s))) = next_ref (world s).
Proof.
  unfold_m. destruct (message u); simpl; [|done].
  by destruct (ext_call _ _ _).
Qed.

Lemma get_session_change chat s :
  registry_change (Op_get_session chat) s (snd (_get_session env chat s)).
Proof.
  destruct (sessions (self s) !! chat) as [r|] eqn:Hs.
  - rewrite (get_session_present _ _ _ Hs). by apply registry_unchanged.
  - rewrite (get_session_absent _ _ Hs).
    destruct (ext_call _ _ _); simpl.
    + by apply registry_unchanged.
    + by apply (registry_added _ _ _ chat).
Qed.

Lemma reset_command_change u s :
  registry_change (Op_reset u) s (snd (reset_command env u s)).
Proof.
  unfold reset_command.
  destruct (message u) as [m|] eqn:Hm; [|by apply registry_unchanged].
  unfold_m. rewrite Hm. simpl.
  destruct (sessions (self s) !! chat_id m) as [r|] eqn:Hs; simpl.
  - destruct (ext_call _ _ (clear_session r)); simpl.
    + by apply registry_unchanged.
    + destruct (ext_call _ _ _); simpl;
        by apply (registry_removed _ _ _ u m).
  - destruct (ext_call _ _ _); simpl; by apply registry_unchanged.
Qed.

Lemma handle_message_change u s :
  registry_change (Op_message u) s (snd (handle_message env strip u s)).
Proof.
  destruct (handle_message env strip u s) as [out s'] eqn:Hrun. simpl.
  unfold handle_message in Hrun.
  destruct (message u) as [m|] eqn:Hm;
    [| injection Hrun as <- <-; by apply registry_unchanged].
  destruct (text m) as [t|] eqn:Ht;
    [| injection Hrun as <- <-; by apply registry_unchanged].
  destruct (truthy t) eqn:Htruthy; simpl in Hrun;
    [| injection Hrun as <- <-; by apply registry_unchanged].
  unfold_m; simpl in Hrun; rewrite ?Hm in Hrun.
  step_env Hrun; [injection Hrun as <- <-; by apply registry_unchanged |].
  match type of Hrun with
  | context [_get_session env ?c ?st] =>
      destruct (sessions (self st) !! c) as [r0|] eqn:Hs;
        [ rewrite (get_session_present c st r0 Hs) in Hrun
        | rewrite (get_session_absent c st Hs) in Hrun; simpl in Hrun;
          step_env Hrun ]
  end;
  simpl in Hrun; repeat step_env Hrun; injection Hrun as <- <-.
  all: first [ by apply registry_unchanged
             | by apply (registry_added _ _ _ (chat_id m)) ].
Qed.

Lemma step_change o s : registry_change o s (step env strip s o).
Proof.
  destruct o as [chat|u|u|u|u]; unfold step; simpl.
  - unfold bind. pose proof (get_session_change chat s) as H.
    destruct (_get_session env chat s) as [[r|e] s']; simpl in *.
    + inversion H; [ by apply registry_unchanged
                   | by eapply registry_added | done ].
    + inversion H; [ by apply registry_unchanged
                   | by eapply registry_added | done ].
  - destruct (message_reply_text_self u start_text (Some "Markdown") s) as (?&?&?).
    by apply registry_unchanged.
  - destruct (message_reply_text_self u help_text (Some "Markdown") s) as (?&?&?).
    by apply registry_unchanged.
  - apply reset_command_change.
  - apply handle_message_change.
Qed.

(** *** C7: the registry invariant *)

Lemma init_sessions srv w b w' :
  OrdersBot_init srv w = (Ret b, w') -> sessions b = ∅.
Proof.
  unfold OrdersBot_init, load_dotenv, os_getenv. unfold_m. simpl.
  destruct (_ !! _) as [tok|]; [|done].
  destruct (truthy tok); simpl; [|done].
  by intros [= <- <-].
Qed.

Lemma registry_ok_init srv w b w' :
  OrdersBot_init srv w = (Ret b, w') -> registry_ok (mkSys b w').
Proof.
  intros H chat r. simpl. by rewrite (init_sessions _ _ _ _ H), lookup_empty.
Qed.

Lemma registry_ok_step s o :
  registry_ok s -> registry_ok (step env strip s o).
Proof.
  intros Hok chat r.
  destruct (step_change o s) as [Hb Hh Hn | c Hnone Hb Hh Hn | u m _ _ Hb Hh Hn];
    rewrite Hb, Hh, Hn; simpl.
  - apply Hok.
  - destruct (decide (c = chat)) as [-> | Hne].
    + rewrite lookup_insert_eq. intros [= <-].
      rewrite lookup_insert_eq. split; [done | lia].
    + rewrite lookup_insert_ne by done. intros Hr.
      destruct (Hok chat r Hr) as [Hheap Hlt].
      rewrite lookup_insert_ne by lia. split; [done | lia].
  - intros Hr. apply lookup_delete_Some in Hr as [_ Hr]. by apply Hok.
Qed.

Lemma reachable_ok s : reachable env strip s -> registry_ok s.
Proof.
  induction 1 as [srv w b w' Hinit | s o _ IH].
  - by eapply registry_ok_init.
  - by apply registry_ok_step.
Qed.

Lemma reachable_steps ops s :
  reachable env strip s -> reachable env strip (steps env strip ops s).
Proof.
  revert s. induction ops as [|o ops IH]; intros s Hs; simpl; [done|].
  apply IH. by constructor.
Qed.

(** Two entries of a well-formed registry never share a handle. *)
Lemma registry_ok_no_alias s c1 c2 r :
  registry_ok s ->
  sessions (self s) !! c1 = Some r ->
  sessions (self s) !! c2 = Some r ->
  c1 = c2.
Proof.
  intros Hok H1 H2.
  destruct (Hok _ _ H1) as [Hh1 _]. destruct (Hok _ _ H2) as [Hh2 _].
  rewrite Hh1 in Hh2. injection Hh2 as Hstr.
  by apply (inj pretty) in Hstr.
Qed.

Lemma session_of_registered s chat r :
  registry_ok s ->
  session_of s chat r <-> sessions (self s) !! chat = Some r.
Proof.
  intros Hok. split.
  - intros [[c Hc] (o & Ho & Hid)].
    destruct (Hok _ _ Hc) as [Hh _]. rewrite Hh in Ho. injection Ho as <-.
    simpl in Hid. apply (inj pretty) in Hid. by subst.
  - intros Hr. destruct (Hok _ _ Hr) as [Hh _].
    split; [by exists chat | by eexists].
Qed.

(** C7: in every state a constructed bot reaches by its operations
    ([_get_session], [/start], [/help], [/reset], text messages), the
    live sessions bound to a conversation are exactly what the registry
    holds for it, so there is at most one per conversation id; every
    registered handle denotes a session object made for that id. *)
Theorem registry_single_source_of_truth s :
  reachable env strip s ->
  (forall chat r, session_of s chat r <-> sessions (self s) !! chat = Some r) /\
  (forall chat r1 r2, session_of s chat r1 -> session_of s chat r2 -> r1 = r2) /\
  registry_ok s.
Proof.
  intros Hreach. pose proof (reachable_ok s Hreach) as Hok.
  split; [|split]; [| |done].
  - intros chat r. by apply session_of_registered.
  - intros chat r1 r2 H1 H2.
    apply session_of_registered in H1; [|done].
    apply session_of_registered in H2; [|done].
    congruence.
Qed.

(** *** C2: a conversation keeps its session handle *)

Lemma get_session_registers chat s r s1 :
  _get_session env chat s = (Ret r, s1) ->
  sessions (self s1) !! chat = Some r.
Proof.
  destruct (sessions (self s) !! chat) as [r0|] eqn:Hs.
  - rewrite (get_session_present _ _ _ Hs). by intros [= <- <-].
  - rewrite (get_session_absent _ _ Hs).
    destruct (ext_call _ _ _); [done|].
    intros [= <- <-]. simpl. apply lookup_insert_eq.
Qed.

Lemma step_keeps_entry chat r o s :
  sessions (self s) !! chat = Some r ->
  resets chat o = false ->
  sessions (self (step env strip s o)) !! chat = Some r.
Proof.
  intros Hr Ho.
  destruct (step_change o s) as [Hb _ _ | c Hnone Hb _ _ | u m -> Hm Hb _ _];
    rewrite Hb; simpl.
  - done.
  - rewrite lookup_insert_ne; [done | congruence].
  - simpl in Ho. rewrite Hm in Ho. apply bool_decide_eq_false in Ho.
    by rewrite lookup_delete_ne.
Qed.

Lemma steps_keep_entry chat r ops s :
  sessions (self s) !! chat = Some r ->
  forallb (fun o => negb (resets chat o)) ops = true ->
  sessions (self (steps env strip ops s)) !! chat = Some r.
Proof.
  revert s. induction ops as [|o ops IH]; intros s Hr Hops; simpl in *; [done|].
  apply andb_true_iff in Hops as [Ho Hops]. apply negb_true_iff in Ho.
  apply IH; [|done]. by apply step_keeps_entry.
Qed.

(** C2: once [_get_session] has returned a handle for a conversation,
    calling it again for the same id returns the same handle (and
    changes nothing), whatever operations ran in between, for this or
    for other conversations, as long as none of them is a [/reset] of
    that conversation. *)
Theorem get_session_stable chat s r s1 ops :
  _get_session env chat s = (Ret r, s1) ->
  forallb (fun o => negb (resets chat o)) ops = true ->
  _get_session env chat (steps env strip ops s1) =
    (Ret r, steps env strip ops s1).
Proof.
  intros Hget Hops. apply get_session_present.
  apply steps_keep_entry; [|done]. by eapply get_session_registers.
Qed.

(** *** C3 and C10: [/reset] *)

(** The removal comes after the clearing: when [clear_session] raises,
    the exception leaves the handler with the entry still registered
    and without a reply. *)
Lemma reset_command_clear_raises u m s r e :
  message u = Some m ->
  sessions (self s) !! chat_id m = Some r ->
  ext_call env (trace (world s)) (clear_session r) = Some e ->
  reset_command env u s =
    (Raise e, mkSys (self s) (record (Called (clear_session r) (Some e)) (world s))).
Proof.
  intros Hm Hs He. unfold reset_command. rewrite Hm. unfold_m.
  rewrite Hs. simpl. by rewrite He.
Qed.

(** C3, as the code has it: [/reset] for a conversation.  With a
    registered session the handler first calls [clear_session] on it;
    when that call returns, it drops the entry and sends the
    confirmation text; when it raises, the exception leaves the
    handler with the entry still registered and nothing sent.  With no
    session the registry is left as it is and the confirmation text is
    sent.  Where the confirmation is sent the handler ends as that
    sending ends.  Once the conversation has no entry, the next
    [_get_session] for it builds a new session object, under a handle
    that no session of the registry had. *)
Theorem reset_command_clears_then_forgets u m s out s' :
  message u = Some m ->
  reachable env strip s ->
  reset_command env u s = (out, s') ->
  match sessions (self s) !! chat_id m with
  | Some r =>
      match ext_call env (trace (world s)) (clear_session r) with
      | None =>
          exists o,
            emitted (world s) (world s')
              [Called (clear_session r) None;
               Called (reply_text (chat_id m) reset_text None) o] /\
            out = outcome_of o /\
            sessions (self s') = delete (chat_id m) (sessions (self s))
      | Some e =>
          emitted (world s) (world s') [Called (clear_session r) (Some e)] /\
          out = Raise e /\
          self s' = self s
      end
  | None =>
      exists o,
        emitted (world s) (world s')
          [Called (reply_text (chat_id m) reset_text None) o] /\
        out = outcome_of o /\
        self s' = self s
  end /\
  (sessions (self s') !! chat_id m = None ->
   (ext_call env (trace (world s'))
      (SQLiteSession_new (str (chat_id m)) "sessions.db") = None ->
    _get_session env (chat_id m) s' =
      (Ret (next_ref (world s')), created (chat_id m) s')) /\
   ~ live s (next_ref (world s'))).
Proof.
  intros Hm Hreach Hrun.
  assert (Hfresh : ~ live s (next_ref (world s))).
  { intros [c Hc]. apply reachable_ok in Hreach.
    destruct (Hreach _ _ Hc) as [_ Hlt]. lia. }
  unfold reset_command in Hrun. rewrite Hm in Hrun. unfold_m.
  rewrite Hm in Hrun. unfold emitted.
  destruct (sessions (self s) !! chat_id m) as [r|] eqn:Hs; simpl in Hrun.
  - destruct (ext_call env (trace (world s)) (clear_session r)) as [e|] eqn:Hc;
      simpl in Hrun.
    + injection Hrun as <- <-. simpl. split; [done|].
      rewrite Hs. discriminate.
    + step_env Hrun; injection Hrun as <- <-; simpl;
        rewrite <- ?app_assoc; simpl.
      all: split; [eexists; repeat split; reflexivity|].
      all: intros _; split; [|done].
      all: intros Hnew;
        rewrite get_session_absent by (simpl; apply lookup_delete_eq);
        simpl; rewrite <- ?app_assoc; simpl; by rewrite Hnew.
  - step_env Hrun; injection Hrun as <- <-; simpl.
    all: split; [eexists; repeat split; first [reflexivity | by destruct s as [[]]]|].
    all: intros _; split; [|done].
    all: intros Hnew; rewrite get_session_absent by done;
      simpl; simpl in Hnew; by rewrite Hnew.
Qed.

(** C10: a [/reset] of one conversation leaves the entries of all the
    others as they were, does not touch the session objects and clears
    no session but the one registered for that conversation; [/start]
    and [/help] never change the registry, nor anything else of the bot
    object. *)
Theorem reset_command_frame u m s out s' :
  message u = Some m ->
  reachable env strip s ->
  reset_command env u s = (out, s') ->
  (forall chat, chat <> chat_id m ->
     sessions (self s') !! chat = sessions (self s) !! chat) /\
  heap (world s') = heap (world s) /\
  (forall evs chat r o,
     emitted (world s) (world s') evs ->
     chat <> chat_id m ->
     sessions (self s) !! chat = Some r ->
     ~ In (Called (clear_session r) o) evs) /\
  (forall u0 s0,
     self (snd (start env u0 s0)) = self s0 /\
     self (snd (help_command env u0 s0)) = self s0).
Proof.
  intros Hm Hreach Hrun. apply reachable_ok in Hreach.
  assert (Hstart : forall u0 s0,
             self (snd (start env u0 s0)) = self s0 /\
             self (snd (help_command env u0 s0)) = self s0).
  { intros u0 s0. split; apply message_reply_text_self. }
  unfold reset_command in Hrun. rewrite Hm in Hrun. unfold_m.
  rewrite Hm in Hrun.
  destruct (sessions (self s) !! chat_id m) as [r0|] eqn:Hs; simpl in Hrun;
    repeat step_env Hrun; injection Hrun as <- <-; simpl.
  all: split; [|split; [|split]]; try done.
  all: try (intros chat Hne; by rewrite lookup_delete_ne).
  all: intros evs chat r oc Hev Hne Hr Hin; new_events Hev; simpl in Hin;
    intuition (try discriminate); simplify_eq;
    by apply Hne, (registry_ok_no_alias s chat (chat_id m) r).
Qed.

(** *** C5: the shutdown sequence of [run] *)

(** C5, as the code has it: once the startup of [run] has completed
    ([initialize], [start] and [start_polling] returned), the shutdown
    sequence is entered after the polling wait however the wait ends,
    by returning or by raising any exception: [updater.stop], then
    [app.stop], then [app.shutdown], in this order, each step run when
    the one before returned. *)
Theorem run_shutdown_after_startup s out s' evs :
  run env s = (out, s') ->
  emitted (world s) (world s') evs ->
  In (Called updater_start_polling None) evs ->
  exists pre ended post,
    evs = pre ++ [Called updater_start_polling None;
                  Logged INFO "Bot in esecuzione (polling)…" None;
                  Called stop_event_wait ended] ++ interrupt_log ended ++ post /\
    shutdown_run post.
Proof.
  intros Hrun Hev Hin.
  unfold run, shutdown_sequence, add_handler in Hrun. unfold_m.
  simpl in Hrun.
  destruct (application (self s)) as [app|] eqn:Happ; simpl in Hrun;
    [ rewrite Happ in Hrun | step_env Hrun ].
  all: repeat step_env Hrun.
  all: injection Hrun as <- <-; new_events Hev; simpl in Hin.
  all: intuition (try discriminate).
  all: split_around ltac:(
    do 2 eexists; split;
    [ simpl; repeat (apply (f_equal2 cons); [reflexivity|]);
      unfold interrupt_log;
      try match goal with
          | H : is_interrupt ?e = _ |- context [is_interrupt ?e] => rewrite H
          end;
      simpl; reflexivity
    | constructor ]).
Qed.

(** *** C6 and C8: configuration *)

Lemma extends_ret {S A} (tr : S -> list event) (a : A) : extends tr (ret a).
Proof. intros s. exists []. simpl. by rewrite app_nil_r. Qed.

Lemma extends_raise {S A} (tr : S -> list event) e : extends tr (@raise S A e).
Proof. intros s. exists []. simpl. by rewrite app_nil_r. Qed.

Lemma extends_bind {S A B} (tr : S -> list event) (m : M S A) (k : A -> M S B) :
  extends tr m -> (forall a, extends tr (k a)) -> extends tr (bind m k).
Proof.
  intros Hm Hk s. unfold bind. destruct (Hm s) as [evs Hevs].
  destruct (m s) as [[a|e] s1]; simpl in *.
  - destruct (Hk a s1) as [evs' Hevs']. exists (evs ++ evs').
    by rewrite Hevs', Hevs, app_assoc.
  - by exists evs.
Qed.

Lemma extends_try_except {S A} (tr : S -> list event) (m : M S A) catches h :
  extends tr m -> (forall e, extends tr (h e)) ->
  extends tr (try_except m catches h).
Proof.
  intros Hm Hh s. unfold try_except. destruct (Hm s) as [evs Hevs].
  destruct (m s) as [[a|e] s1]; simpl in *; [by exists evs|].
  destruct (catches e); [|by exists evs].
  destruct (Hh e s1) as [evs' Hevs']. exists (evs ++ evs').
  by rewrite Hevs', Hevs, app_assoc.
Qed.

Lemma extends_try_finally {S A} (tr : S -> list event) (m : M S A) fin :
  extends tr m -> extends tr fin -> extends tr (try_finally m fin).
Proof.
  intros Hm Hf s. unfold try_finally. destruct (Hm s) as [evs Hevs].
  destruct (m s) as [r s1]; simpl in *.
  destruct (Hf s1) as [evs' Hevs']. exists (evs ++ evs').
  destruct (fin s1) as [[[]|e] s2]; simpl in *;
    by rewrite Hevs', Hevs, app_assoc.
Qed.

Lemma extends_lift {A} (m : M World A) :
  extends trace m -> extends (fun s => trace (world s)) (lift m).
Proof.
  intros Hm s. unfold lift. destruct (Hm (world s)) as [evs Hevs].
  destruct (m (world s)) as [r w]. by exists evs.
Qed.

Lemma extends_with_self {A} b (m : M Sys A) :
  extends (fun s => trace (world s)) m -> extends trace (with_self b m).
Proof.
  intros Hm w. unfold with_self. destruct (Hm (mkSys b w)) as [evs Hevs].
  destruct (m (mkSys b w)) as [r s]. by exists evs.
Qed.

Lemma extends_extern c : extends trace (extern env c).
Proof.
  intros w. unfold extern. destruct (ext_call _ _ _); by eexists.
Qed.

Lemma extends_logger_info msg : extends trace (logger_info msg).
Proof. intros w. by eexists. Qed.

Lemma extends_logger_exception msg e : extends trace (logger_exception msg e).
Proof. intros w. by eexists. Qed.

Lemma extends_set_application a :
  extends (fun s => trace (world s)) (set_application a).
Proof. intros s. exists []. simpl. by rewrite app_nil_r. Qed.

Lemma extends_get_self : extends (fun s => trace (world s)) get_self.
Proof. intros s. exists []. simpl. by rewrite app_nil_r. Qed.

Lemma extends_init srv : extends trace (OrdersBot_init srv).
Proof.
  intros w. exists []. rewrite app_nil_r.
  unfold OrdersBot_init, load_dotenv, os_getenv. unfold_m. simpl.
  destruct (_ !! _) as [tok|]; [|done]. by destruct (truthy tok).
Qed.

Lemma extends_add_handler h :
  extends (fun s => trace (world s)) (add_handler h).
Proof.
  unfold add_handler. apply extends_bind; [apply extends_get_self|].
  intros b. destruct (application b);
    [apply extends_set_application | apply extends_raise].
Qed.

Ltac extends_steps :=
  repeat match goal with
    | |- forall _, extends _ _ => intro
    | |- extends _ (bind _ _) => apply extends_bind
    | |- extends _ (try_finally _ _) => apply extends_try_finally
    | |- extends _ (try_except _ _ _) => apply extends_try_except
    | |- extends _ (lift _) => apply extends_lift
    | |- extends _ (extern _ _) => apply extends_extern
    | |- extends _ (logger_info _) => apply extends_logger_info
    | |- extends _ (set_application _) => apply extends_set_application
    | |- extends _ (add_handler _) => apply extends_add_handler
    | |- extends _ get_self => apply extends_get_self
    | |- extends _ (ret _) => apply extends_ret
    | |- extends _ (raise _) => apply extends_raise
    | |- extends _ (match ?x with _ => _ end) => destruct x
    end.

Lemma extends_run : extends (fun s => trace (world s)) (run env).
Proof. unfold run, shutdown_sequence. extends_steps. Qed.

Lemma extends_main_with_server srv : extends trace (main_with_server env srv).
Proof.
  unfold main_with_server.
  apply extends_bind; [apply extends_logger_info | intros _].
  apply extends_bind; [apply extends_init | intros bot].
  apply extends_try_finally; [|apply extends_logger_info].
  apply extends_try_except; [|intros e; apply extends_logger_exception].
  apply extends_with_self, extends_run.
Qed.

(** [main] up to the start of the tool subprocess. *)
Lemma main_start w :
  let vars := environ w ∪ dotenv w in
  let command := default_of (vars !! "ORDERS_MCP_COMMAND") "python" in
  let script := default_of (vars !! "ORDERS_MCP_SCRIPT") "orders_mcp_server.py" in
  let srv := mkMCPServerStdio "Orders MCP Server" command [script] true in
  let w1 :=
    record (Logged INFO ("Avvio MCPServerStdio: " +:+ command +:+ " " +:+ script) None)
      (mkWorld vars (dotenv w) (heap w) (next_ref w) (trace w)) in
  main env w =
    match ext_call env (trace w1) (MCPServerStdio_aenter srv) with
    | Some e => (Raise e, record (Called (MCPServerStdio_aenter srv) (Some e)) w1)
    | None =>
        try_finally (main_with_server env srv)
          (extern env (MCPServerStdio_aexit srv))
          (record (Called (MCPServerStdio_aenter srv) None) w1)
    end.
Proof.
  intros vars command script srv w1.
  unfold main, async_with, os_getenv_default, load_dotenv, logger_info, bind.
  simpl. unfold extern at 1. fold vars command script srv. fold w1.
  by destruct (ext_call _ _ _).
Qed.

Lemma init_without_token srv w :
  (environ w ∪ dotenv w) !! "TELEGRAM_BOT_TOKEN" = None \/
  (environ w ∪ dotenv w) !! "TELEGRAM_BOT_TOKEN" = Some EmptyString ->
  OrdersBot_init srv w =
    (Raise token_error,
     mkWorld (environ w ∪ dotenv w) (dotenv w) (heap w) (next_ref w) (trace w)).
Proof.
  intros H. unfold OrdersBot_init, load_dotenv, os_getenv. unfold_m. simpl.
  by destruct H as [-> | ->].
Qed.

(** C6: when [TELEGRAM_BOT_TOKEN] is absent, from the environment and
    from the [.env] file, or empty, the construction of [OrdersBot]
    raises the configuration error; it does so without any external
    call, and [main] ends with an exception without any chat activity:
    the transport application is not built, no message is sent and the
    agent is not run. *)
Theorem missing_token_is_fatal srv w :
  (environ w ∪ dotenv w) !! "TELEGRAM_BOT_TOKEN" = None \/
  (environ w ∪ dotenv w) !! "TELEGRAM_BOT_TOKEN" = Some EmptyString ->
  (exists w', OrdersBot_init srv w = (Raise token_error, w') /\
              trace w' = trace w) /\
  (exists e w' evs,
     main env w = (Raise e, w') /\
     emitted w w' evs /\
     forallb (fun ev => negb (chat_activity ev)) evs = true).
Proof.
  intros Htok. split.
  - eexists. split; [by apply init_without_token | done].
  - rewrite main_start. simpl.
    destruct (ext_call env _ (MCPServerStdio_aenter _)) as [e|] eqn:Eenter.
    + do 3 eexists. split; [reflexivity|]. unfold emitted. simpl.
      rewrite <- ?app_assoc. simpl. split; [reflexivity | done].
    + unfold try_finally, main_with_server, logger_info, bind. simpl.
      rewrite init_without_token; simpl.
      2:{ rewrite <- (assoc_L (∪)), (idemp_L (∪)). exact Htok. }
      unfold extern. simpl.
      destruct (ext_call env _ (MCPServerStdio_aexit _)) as [e|] eqn:Eexit;
        simpl; do 3 eexists; (split; [reflexivity|]); unfold emitted; simpl;
        rewrite <- ?app_assoc; simpl; (split; [reflexivity | done]).
Qed.

(** C8: [main] takes the command from [ORDERS_MCP_COMMAND], or
    ["python"] when it is not set, and the script from
    [ORDERS_MCP_SCRIPT], or ["orders_mcp_server.py"] when it is not
    set, and starts the tool subprocess with that command and that
    script as its only argument, whatever is set or not. *)
Theorem main_launches_configured_server w :
  let vars := environ w ∪ dotenv w in
  let command := default_of (vars !! "ORDERS_MCP_COMMAND") "python" in
  let script := default_of (vars !! "ORDERS_MCP_SCRIPT") "orders_mcp_server.py" in
  (exists out w' started rest,
     main env w = (out, w') /\
     emitted w w'
       ([Logged INFO ("Avvio MCPServerStdio: " +:+ command +:+ " " +:+ script) None;
         Called
           (MCPServerStdio_aenter
              (mkMCPServerStdio "Orders MCP Server" command [script] true))
           started] ++ rest)) /\
  (vars !! "ORDERS_MCP_COMMAND" = None -> command = "python") /\
  (vars !! "ORDERS_MCP_SCRIPT" = None -> script = "orders_mcp_server.py") /\
  (forall v, vars !! "ORDERS_MCP_COMMAND" = Some v -> command = v) /\
  (forall v, vars !! "ORDERS_MCP_SCRIPT" = Some v -> script = v).
Proof.
  intros vars command script. split.
  - rewrite main_start. fold vars command script.
    set (srv := mkMCPServerStdio _ _ _ _). set (w1 := record _ _).
    destruct (ext_call env _ (MCPServerStdio_aenter _)) as [e|] eqn:Eenter.
    + exists (Raise e). eexists. exists (Some e), []. split; [reflexivity|].
      unfold emitted. subst w1 srv. simpl. by rewrite <- ?app_assoc.
    + set (w2 := record _ w1).
      destruct (extends_try_finally trace (main_with_server env srv)
                  (extern env (MCPServerStdio_aexit srv))
                  (extends_main_with_server srv)
                  (extends_extern _) w2) as [evs Hevs].
      destruct (try_finally _ _ w2) as [out w'].
      exists out, w', None, evs. split; [reflexivity|].
      unfold emitted. simpl in Hevs. rewrite Hevs. subst w2 w1 srv. simpl.
      by rewrite <- ?app_assoc.
  - subst command script. unfold default_of.
    repeat split; [intros -> | intros -> | intros v -> | intros v ->]; done.
Qed.

End Handlers.

(** ** The statements at concrete inputs *)

Lemma sys0_reachable env strip : reachable env strip sys0.
Proof. apply (reachable_init env strip srv0 world0). reflexivity. Qed.

Lemma sys1_reachable : reachable env0 strip_ascii sys1.
Proof. apply reachable_step, sys0_reachable. Qed.

(** An update without message is ignored. *)
Lemma handle_message_without_text_witness :
  handle_message env0 strip_ascii (mkUpdate None) sys1 = (Ret tt, sys1).
Proof.
  apply (handle_message_without_text env0 strip_ascii (mkUpdate None) sys1).
  left. reflexivity.
Defined.

(** An agent without final output: the fallback text is sent. *)
Lemma handle_message_relays_final_output_witness :
  exists m t reply pre o post,
    message (update42 price_question) = Some m /\ text m = Some t /\
    agent bot0 = agent (self sys0) /\ price_question = strip_ascii t /\
    [Logged INFO ("Messaggio da 42: " +:+ price_question) None;
     Called (send_action 42 TYPING) None;
     Called (SQLiteSession_new "42" "sessions.db") None;
     Ran (agent bot0) price_question 0 (Ret None);
     Called (reply_text 42 fallback_text (Some "Markdown")) None] =
    pre ++ [Ran (agent bot0) price_question 0 (Ret None);
            Called (reply_text (chat_id m) reply (Some "Markdown")) o] ++ post /\
    (forall answer, @None string = Some answer -> answer <> EmptyString -> reply = answer) /\
    (@None string = None \/ None = Some EmptyString -> reply = fallback_text) /\
    reply <> EmptyString.
Proof.
  apply (handle_message_relays_final_output (env_agent (Ret None)) strip_ascii
           (update42 price_question) sys0
           (fst (handle_message (env_agent (Ret None)) strip_ascii
                   (update42 price_question) sys0))
           (snd (handle_message (env_agent (Ret None)) strip_ascii
                   (update42 price_question) sys0))).
  - vm_compute. reflexivity.
  - vm_compute. reflexivity.
  - simpl. tauto.
Defined.

(** The agent fails with an [Exception]: the apology is sent and the
    handler returns. *)
Lemma handle_message_agent_exception_witness :
  exists m pre o,
    message (update42 price_question) = Some m /\
    [Logged INFO ("Messaggio da 42: " +:+ price_question) None;
     Called (send_action 42 TYPING) None;
     Called (SQLiteSession_new "42" "sessions.db") None;
     Ran (agent bot0) price_question 0 (Raise (OtherException "MaxTurnsExceeded"));
     Logged ERROR "Errore durante l'elaborazione del messaggio"
       (Some (OtherException "MaxTurnsExceeded"));
     Called (reply_text 42 apology_text None) None] =
    pre ++ [Ran (agent bot0) price_question 0 (Raise (OtherException "MaxTurnsExceeded"));
            Logged ERROR "Errore durante l'elaborazione del messaggio"
              (Some (OtherException "MaxTurnsExceeded"));
            Called (reply_text (chat_id m) apology_text None) o] /\
    Ret tt = outcome_of o /\
    sessions
      (self
         (snd (handle_message (env_agent (Raise (OtherException "MaxTurnsExceeded")))
                 strip_ascii (update42 price_question) sys0)))
      !! chat_id m = Some 0%nat.
Proof.
  apply (handle_message_agent_exception
           (env_agent (Raise (OtherException "MaxTurnsExceeded"))) strip_ascii
           (update42 price_question) sys0).
  - vm_compute. reflexivity.
  - vm_compute. reflexivity.
  - simpl. tauto.
  - reflexivity.
Defined.

(** The agent run is interrupted: [KeyboardInterrupt] is not an
    [Exception], it leaves the handler, nothing is logged by the
    handler's [except] clause and no reply is sent. *)
Lemma handle_message_interrupt_escapes :
  let res := handle_message (env_agent (Raise KeyboardInterrupt)) strip_ascii
               (update42 price_question) sys0 in
  In (Ran (agent bot0) price_question 0 (Raise KeyboardInterrupt))
     (trace (world (snd res))) /\
  fst res = Raise KeyboardInterrupt /\
  forallb (fun ev => negb (is_reply ev)) (trace (world (snd res))) = true.
Proof.
  vm_compute. repeat split. tauto.
Qed.


(** Conversation 42 keeps its handle across traffic of conversations 7
    and 42 and a [/reset] of conversation 7. *)
Lemma get_session_stable_witness :
  _get_session env0 42 (steps env0 strip_ascii traffic sys1) =
    (Ret 0%nat, steps env0 strip_ascii traffic sys1).
Proof.
  apply (get_session_stable env0 strip_ascii 42 sys1 0%nat sys1 traffic).
  - vm_compute. reflexivity.
  - reflexivity.
Defined.

(** A [/reset] of conversation 42 after its first message. *)
Lemma reset_command_clears_then_forgets_witness :
  match sessions (self sys1) !! 42 with
  | Some r =>
      match ext_call env0 (trace (world sys1)) (clear_session r) with
      | None =>
          exists o,
            emitted (world sys1)
              (world (snd (reset_command env0 (update42 "/reset") sys1)))
              [Called (clear_session r) None;
               Called (reply_text 42 reset_text None) o] /\
            fst (reset_command env0 (update42 "/reset") sys1) = outcome_of o /\
            sessions (self (snd (reset_command env0 (update42 "/reset") sys1))) =
              delete 42 (sessions (self sys1))
      | Some e =>
          emitted (world sys1)
            (world (snd (reset_command env0 (update42 "/reset") sys1)))
            [Called (clear_session r) (Some e)] /\
          fst (reset_command env0 (update42 "/reset") sys1) = Raise e /\
          self (snd (reset_command env0 (update42 "/reset") sys1)) = self sys1
      end
  | None =>
      exists o,
        emitted (world sys1)
          (world (snd (reset_command env0 (update42 "/reset") sys1)))
          [Called (reply_text 42 reset_text None) o] /\
        fst (reset_command env0 (update42 "/reset") sys1) = outcome_of o /\
        self (snd (reset_command env0 (update42 "/reset") sys1)) = self sys1
  end /\
  (sessions (self (snd (reset_command env0 (update42 "/reset") sys1))) !! 42 = None ->
   (ext_call env0
      (trace (world (snd (reset_command env0 (update42 "/reset") sys1))))
      (SQLiteSession_new (str 42) "sessions.db") = None ->
    _get_session env0 42 (snd (reset_command env0 (update42 "/reset") sys1)) =
      (Ret (next_ref (world (snd (reset_command env0 (update42 "/reset") sys1)))),
       created 42 (snd (reset_command env0 (update42 "/reset") sys1)))) /\
   ~ live sys1 (next_ref (world (snd (reset_command env0 (update42 "/reset") sys1))))).
Proof.
  apply (reset_command_clears_then_forgets env0 strip_ascii (update42 "/reset")
           (mkMessage 42 (Some "/reset")) sys1).
  - reflexivity.
  - exact sys1_reachable.
  - vm_compute. reflexivity.
Defined.

(** The session store cannot clear: the [/reset] of conversation 42
    raises, the conversation keeps its session and no confirmation is
    sent. *)
Lemma reset_command_no_confirmation_when_clear_fails :
  sessions (self sys1) !! 42 = Some 0%nat /\
  fst (reset_command env_store_locked (update42 "/reset") sys1) =
    Raise (OtherException "OperationalError") /\
  trace (world (snd (reset_command env_store_locked (update42 "/reset") sys1))) =
    trace (world sys1) ++
    [Called (clear_session 0) (Some (OtherException "OperationalError"))] /\
  sessions (self (snd (reset_command env_store_locked (update42 "/reset") sys1)))
    !! 42 = Some 0%nat.
Proof.
  vm_compute. repeat split.
Qed.

(** With conversations 42 and 7 registered, the [/reset] of 42 leaves
    conversation 7 alone. *)
Lemma reset_command_frame_witness :
  (sessions (self sys2) !! 42 = Some 0%nat /\
   sessions (self sys2) !! 7 = Some 1%nat) /\
  (forall chat, chat <> 42 ->
     sessions (self (snd (reset_command env0 (update42 "/reset") sys2))) !! chat =
     sessions (self sys2) !! chat) /\
  heap (world (snd (reset_command env0 (update42 "/reset") sys2))) = heap (world sys2) /\
  (forall evs chat r o,
     emitted (world sys2)
       (world (snd (reset_command env0 (update42 "/reset") sys2))) evs ->
     chat <> 42 ->
     sessions (self sys2) !! chat = Some r ->
     ~ In (Called (clear_session r) o) evs) /\
  (forall u0 s0,
     self (snd (start env0 u0 s0)) = self s0 /\
     self (snd (help_command env0 u0 s0)) = self s0).
Proof.
  split; [split; vm_compute; reflexivity|].
  apply (reset_command_frame env0 strip_ascii (update42 "/reset")
           (mkMessage 42 (Some "/reset")) sys2
           (fst (reset_command env0 (update42 "/reset") sys2))).
  - reflexivity.
  - apply reachable_step, sys1_reachable.
  - vm_compute. reflexivity.
Defined.

(** After that [/reset], conversation 7 still has its session 1, which
    was not cleared: the one call to the store is for session 0. *)
Example reset_of_42_spares_7 :
  sessions (self (snd (reset_command env0 (update42 "/reset") sys2))) =
    {[7 := 1%nat]} /\
  List.filter is_clear
    (trace (world (snd (reset_command env0 (update42 "/reset") sys2)))) =
    [Called (clear_session 0) None].
Proof. vm_compute. split; reflexivity. Qed.

(** The registry after the traffic. *)
Lemma registry_single_source_of_truth_witness :
  (forall chat r,
     session_of (steps env0 strip_ascii traffic sys1) chat r <->
     sessions (self (steps env0 strip_ascii traffic sys1)) !! chat = Some r) /\
  (forall chat r1 r2,
     session_of (steps env0 strip_ascii traffic sys1) chat r1 ->
     session_of (steps env0 strip_ascii traffic sys1) chat r2 -> r1 = r2) /\
  registry_ok (steps env0 strip_ascii traffic sys1).
Proof.
  apply (registry_single_source_of_truth env0 strip_ascii).
  apply reachable_steps, sys1_reachable.
Defined.

(** The polling wait is cancelled after a complete startup: the
    shutdown sequence runs, and [CancelledError] goes on to the
    caller. *)
Lemma run_shutdown_after_startup_witness :
  exists pre ended post,
    [Logged INFO "Inizializzo OrdersBot..." None;
     Called (Application_build "123:abc") None;
     Called app_initialize None;
     Called app_start None;
     Called updater_start_polling None;
     Logged INFO "Bot in esecuzione (polling)…" None;
     Called stop_event_wait (Some CancelledError);
     Called updater_stop None;
     Called app_stop None;
     Called app_shutdown None;
     Logged INFO "Bot terminato correttamente." None] =
    pre ++ [Called updater_start_polling None;
            Logged INFO "Bot in esecuzione (polling)…" None;
            Called stop_event_wait ended] ++ interrupt_log ended ++ post /\
    shutdown_run post.
Proof.
  apply (run_shutdown_after_startup env_cancelled sys0
           (fst (run env_cancelled sys0)) (snd (run env_cancelled sys0))).
  - vm_compute. reflexivity.
  - vm_compute. reflexivity.
  - simpl. tauto.
Defined.

(** The startup fails at [initialize]: [run] raises and no step of the
    shutdown sequence is executed. *)
Lemma run_no_shutdown_when_startup_fails :
  fst (run env_no_network sys0) = Raise (OtherException "NetworkError") /\
  trace (world (snd (run env_no_network sys0))) =
    [Logged INFO "Inizializzo OrdersBot..." None;
     Called (Application_build "123:abc") None;
     Called app_initialize (Some (OtherException "NetworkError"))] /\
  forallb (fun ev => negb (is_shutdown_call ev))
    (trace (world (snd (run env_no_network sys0)))) = true.
Proof.
  vm_compute. repeat split.
Qed.

(** Without the token, [main] starts and stops the tool subprocess and
    raises the configuration error. *)
Lemma missing_token_is_fatal_witness :
  (exists w', OrdersBot_init srv0 world_without_token = (Raise token_error, w') /\
              trace w' = trace world_without_token) /\
  (exists e w' evs,
     main env0 world_without_token = (Raise e, w') /\
     emitted world_without_token w' evs /\
     forallb (fun ev => negb (chat_activity ev)) evs = true).
Proof.
  apply (missing_token_is_fatal env0 srv0 world_without_token).
  left. vm_compute. reflexivity.
Defined.

(** *** Runs of the whole program *)

Example main_without_token :
  main env0 world_without_token =
    (Raise token_error,
     mkWorld {["ORDERS_MCP_COMMAND" := "python3"]} ∅ ∅ 0
       [Logged INFO "Avvio MCPServerStdio: python3 orders_mcp_server.py" None;
        Called (MCPServerStdio_aenter
                  (mkMCPServerStdio "Orders MCP Server" "python3"
                     ["orders_mcp_server.py"] true)) None;
        Logged INFO "MCP server avviato, creo il bot OrdersBot..." None;
        Called (MCPServerStdio_aexit
                  (mkMCPServerStdio "Orders MCP Server" "python3"
                     ["orders_mcp_server.py"] true)) None]).
Proof. vm_compute. reflexivity. Qed.

(** A cancelled wait passes the [except Exception] of [main]; the
    subprocess is still closed. *)
Example main_cancelled :
  fst (main env_cancelled world0) = Raise CancelledError /\
  trace (snd (main env_cancelled world0)) =
    [Logged INFO "Avvio MCPServerStdio: python orders_mcp_server.py" None;
     Called (MCPServerStdio_aenter srv0) None;
     Logged INFO "MCP server avviato, creo il bot OrdersBot..." None;
     Logged INFO "Inizializzo OrdersBot..." None;
     Called (Application_build "123:abc") None;
     Called app_initialize None;
     Called app_start None;
     Called updater_start_polling None;
     Logged INFO "Bot in esecuzione (polling)…" None;
     Called stop_event_wait (Some CancelledError);
     Called updater_stop None;
     Called app_stop None;
     Called app_shutdown None;
     Logged INFO "Bot terminato correttamente." None;
     Logged INFO "Chiusura OrdersBot completata." None;
     Called (MCPServerStdio_aexit srv0) None].
Proof. vm_compute. split; reflexivity. Qed.

Example traffic_registry :
  sessions (self (steps env0 strip_ascii traffic sys1)) = {[42 := 0%nat]} /\
  next_ref (world (steps env0 strip_ascii traffic sys1)) = 2%nat.
Proof. vm_compute. split; reflexivity. Qed.

Example strip_ascii_example :
  strip_ascii ("  ciao a tutti " +:+ nl) = "ciao a tutti".
Proof. reflexivity. Qed.

(** ** Further properties of the handlers, of [run] and of [main] *)

Section Further.

Variable env : Env.
Variable strip : string -> string.

(** An update is either without text or carries a non-empty text. *)
Lemma update_text_cases u :
  without_text u \/
  exists m t, message u = Some m /\ text m = Some t /\ truthy t = true.
Proof.
  destruct (message u) as [m|] eqn:Hm; [|by left; left].
  destruct (text m) as [t|] eqn:Ht; [|left; right; eauto].
  destruct t as [|c t].
  - left; right; eauto.
  - right. by exists m, (String c t).
Qed.

Lemma handle_message_skips u s :
  without_text u -> handle_message env strip u s = (Ret tt, s).
Proof.
  intros [Hm | (m & Hm & [Ht | Ht])]; unfold handle_message;
    rewrite Hm; try rewrite Ht; done.
Qed.

(** Runs [handle_message] on a message with text, one goal for each
    way the environment can answer. *)
Ltac run_handle_message Hrun Hm Ht Htruthy :=
  unfold handle_message in Hrun; rewrite Hm, Ht in Hrun; simpl in Hrun;
  rewrite Htruthy in Hrun; simpl in Hrun;
  unfold_m; simpl in Hrun; rewrite ?Hm in Hrun;
  step_env Hrun;
  [| match type of Hrun with
     | context [_get_session env ?c ?st] =>
         let r0 := fresh "r0" in
         let Hs := fresh "Hs" in
         destruct (sessions (self st) !! c) as [r0|] eqn:Hs;
           [ rewrite (get_session_present env c st r0 Hs) in Hrun
           | rewrite (get_session_absent env c st Hs) in Hrun; simpl in Hrun;
             step_env Hrun ]
     end;
     simpl in Hrun; repeat step_env Hrun ];
  injection Hrun as <- <-.

(** *** [handle_message]: the failures around the agent run *)

(** X1: the typing indicator is sent before the [try]: when
    [send_action] raises, whatever the exception, it leaves the
    handler; no session is looked up or created, the agent is not run
    and nothing is replied. *)
Theorem handle_message_typing_failure u m t s e :
  message u = Some m ->
  text m = Some t ->
  t <> EmptyString ->
  ext_call env (trace (world s) ++ [inbound_log m (strip t)])
    (send_action (chat_id m) TYPING) = Some e ->
  handle_message env strip u s =
    (Raise e,
     mkSys (self s)
       (record (Called (send_action (chat_id m) TYPING) (Some e))
          (record (inbound_log m (strip t)) (world s)))).
Proof.
  intros Hm Ht Hne He. apply truthy_nonempty in Hne.
  unfold handle_message. rewrite Hm, Ht. simpl. rewrite Hne. simpl.
  unfold_m. simpl. unfold inbound_log in He. by rewrite He.
Qed.

(** X2: when the reply with the agent's answer cannot be sent and the
    failure is an [Exception] (a Markdown text the transport rejects,
    a network error), the handler logs it and sends the apology text,
    this time without parse mode; it ends as that second sending
    ends. *)
Theorem handle_message_reply_failure u s out s' evs chat txt e :
  handle_message env strip u s = (out, s') ->
  emitted (world s) (world s') evs ->
  In (Called (reply_text chat txt (Some "Markdown")) (Some e)) evs ->
  isinstance_Exception e = true ->
  exists pre o,
    evs = pre ++ [Called (reply_text chat txt (Some "Markdown")) (Some e);
                  error_log e;
                  Called (reply_text chat apology_text None) o] /\
    out = outcome_of o.
Proof.
  intros Hrun Hev Hin Hexc.
  destruct (update_text_cases u) as [Hno | (m & t & Hm & Ht & Htruthy)].
  { rewrite (handle_message_skips u s Hno) in Hrun. injection Hrun as <- <-.
    new_events Hev. destruct Hin. }
  run_handle_message Hrun Hm Ht Htruthy.
  all: new_events Hev; simpl in Hin.
  all: intuition (try discriminate); simplify_eq; try congruence.
  all: split_around ltac:(eexists; split; reflexivity).
Qed.

(** X3: when the session of the conversation cannot be created and the
    failure is an [Exception], the handler logs it and sends the
    apology; the agent is not run and the registry is left as it
    was. *)
Theorem handle_message_session_failure u s out s' evs sid path e :
  handle_message env strip u s = (out, s') ->
  emitted (world s) (world s') evs ->
  In (Called (SQLiteSession_new sid path) (Some e)) evs ->
  isinstance_Exception e = true ->
  exists m pre o,
    message u = Some m /\
    sid = str (chat_id m) /\
    evs = pre ++ [Called (SQLiteSession_new sid path) (Some e);
                  error_log e;
                  Called (reply_text (chat_id m) apology_text None) o] /\
    out = outcome_of o /\
    forallb (fun ev => negb (is_run ev)) evs = true /\
    self s' = self s /\
    heap (world s') = heap (world s).
Proof.
  intros Hrun Hev Hin Hexc.
  destruct (update_text_cases u) as [Hno | (m & t & Hm & Ht & Htruthy)].
  { rewrite (handle_message_skips u s Hno) in Hrun. injection Hrun as <- <-.
    new_events Hev. destruct Hin. }
  run_handle_message Hrun Hm Ht Htruthy.
  all: new_events Hev; simpl in Hin.
  all: intuition (try discriminate); simplify_eq; try congruence.
  all: exists m.
  all: split_around ltac:(
    eexists; repeat split; first [reflexivity | assumption]).
Qed.

(** X4: an exception of the agent run that is not an [Exception]
    ([KeyboardInterrupt], [SystemExit], [CancelledError]) leaves the
    handler as it is: the run is the last event, nothing is logged for
    it and nothing is replied; the session stays registered. *)
Theorem handle_message_agent_interrupted u s out s' evs a i r e :
  handle_message env strip u s = (out, s') ->
  emitted (world s) (world s') evs ->
  In (Ran a i r (Raise e)) evs ->
  isinstance_Exception e = false ->
  exists m pre,
    message u = Some m /\
    evs = pre ++ [Ran a i r (Raise e)] /\
    out = Raise e /\
    forallb (fun ev => negb (is_reply ev)) evs = true /\
    sessions (self s') !! chat_id m = Some r.
Proof.
  intros Hrun Hev Hin Hexc.
  destruct (update_text_cases u) as [Hno | (m & t & Hm & Ht & Htruthy)].
  { rewrite (handle_message_skips u s Hno) in Hrun. injection Hrun as <- <-.
    new_events Hev. destruct Hin. }
  run_handle_message Hrun Hm Ht Htruthy.
  all: new_events Hev; simpl in Hin.
  all: intuition (try discriminate); simplify_eq; try congruence.
  all: exists m.
  all: split_around ltac:(
    repeat split; try reflexivity; try assumption;
    simpl; by rewrite ?lookup_insert_eq).
Qed.

(** *** [handle_message]: what it does and what it never does *)

(** X5: a message makes the agent run at most once; a run is for the
    bot's agent, on the stripped text of the message, with the session
    the registry holds for the conversation when the handler ends. *)
Theorem handle_message_runs_agent_once u s out s' evs :
  handle_message env strip u s = (out, s') ->
  emitted (world s) (world s') evs ->
  (length (List.filter is_run evs) <= 1)%nat /\
  forall a i r ro,
    In (Ran a i r ro) evs ->
    exists m t,
      message u = Some m /\ text m = Some t /\
      a = agent (self s) /\ i = strip t /\
      sessions (self s') !! chat_id m = Some r.
Proof.
  intros Hrun Hev.
  destruct (update_text_cases u) as [Hno | (m & t & Hm & Ht & Htruthy)].
  { rewrite (handle_message_skips u s Hno) in Hrun. injection Hrun as <- <-.
    new_events Hev. split; [simpl; lia | intros ? ? ? ? []]. }
  run_handle_message Hrun Hm Ht Htruthy.
  all: new_events Hev; (split; [simpl; lia |]).
  all: intros a i r ro Hin; simpl in Hin.
  all: intuition (try discriminate); simplify_eq.
  all: exists m, t; repeat split; try assumption; simpl;
    by rewrite ?lookup_insert_eq.
Qed.

(** X6: the emptiness test is on the text as received: a non-empty
    text reaches the agent stripped, even when stripping leaves
    nothing, as soon as the typing indicator went out and the
    conversation has its session. *)
Theorem handle_message_reaches_agent u m t s r :
  message u = Some m ->
  text m = Some t ->
  t <> EmptyString ->
  sessions (self s) !! chat_id m = Some r ->
  ext_call env (trace (world s) ++ [inbound_log m (strip t)])
    (send_action (chat_id m) TYPING) = None ->
  exists o rest,
    emitted (world s) (world (snd (handle_message env strip u s)))
      ([inbound_log m (strip t);
        Called (send_action (chat_id m) TYPING) None;
        Ran (agent (self s)) (strip t) r o] ++ rest).
Proof.
  intros Hm Ht Hne Hs Hsend. apply truthy_nonempty in Hne.
  destruct (handle_message env strip u s) as [out s'] eqn:Hrun. simpl.
  unfold handle_message in Hrun. rewrite Hm, Ht in Hrun. simpl in Hrun.
  rewrite Hne in Hrun. simpl in Hrun. unfold_m. simpl in Hrun.
  unfold inbound_log in *. rewrite Hsend in Hrun. rewrite ?Hm in Hrun.
  match type of Hrun with
  | context [_get_session env ?c ?st] =>
      rewrite (get_session_present env c st r Hs) in Hrun
  end.
  simpl in Hrun. repeat step_env Hrun; injection Hrun as <- <-.
  all: unfold emitted; simpl; rewrite <- ?app_assoc; simpl.
  all: do 2 eexists; reflexivity.
Qed.

(** X7: everything [handle_message] sends goes to the chat of the
    inbound message; it sends at most two replies and never asks a
    session to clear its history. *)
Theorem handle_message_addresses_sender u m s out s' evs :
  message u = Some m ->
  handle_message env strip u s = (out, s') ->
  emitted (world s) (world s') evs ->
  forallb (to_chat (chat_id m)) evs = true /\
  (length (List.filter is_reply evs) <= 2)%nat /\
  forallb (fun ev => negb (is_clear ev)) evs = true.
Proof.
  intros Hmsg Hrun Hev.
  destruct (update_text_cases u) as [Hno | (m' & t & Hm & Ht & Htruthy)].
  { rewrite (handle_message_skips u s Hno) in Hrun. injection Hrun as <- <-.
    new_events Hev. simpl. repeat split; lia. }
  rewrite Hm in Hmsg. injection Hmsg as ->.
  run_handle_message Hrun Hm Ht Htruthy.
  all: new_events Hev; simpl; rewrite ?bool_decide_eq_true_2 by done.
  all: repeat split; simpl; lia.
Qed.

(** X8: [handle_message] never removes or rebinds an entry of the
    registry, leaves the entries of the other conversations alone and
    changes nothing else of the bot object. *)
Theorem handle_message_frame u s out s' :
  handle_message env strip u s = (out, s') ->
  (forall chat r,
     sessions (self s) !! chat = Some r -> sessions (self s') !! chat = Some r) /\
  (forall m chat,
     message u = Some m -> chat <> chat_id m ->
     sessions (self s') !! chat = sessions (self s) !! chat) /\
  self s' = with_sessions (self s) (sessions (self s')).
Proof.
  intros Hrun.
  destruct (update_text_cases u) as [Hno | (m & t & Hm & Ht & Htruthy)].
  { rewrite (handle_message_skips u s Hno) in Hrun. injection Hrun as <- <-.
    repeat split; try done. by destruct s as [[]]. }
  run_handle_message Hrun Hm Ht Htruthy.
  all: simpl in *.
  all: split; [|split].
  all: try (by destruct s as [[]]).
  all: try done.
  all: try (intros chat r Hr; rewrite lookup_insert_ne; [done | congruence]).
  all: intros m' chat Hm' Hne; rewrite Hm in Hm'; injection Hm' as <-;
    by rewrite ?lookup_insert_ne.
Qed.

(** *** The commands *)

(** X9: on an update with a message, [/start] and [/help] do one
    thing, whatever the state of the bot: they send their fixed text,
    which is not empty, in Markdown mode to the chat of the message,
    and end as that sending ends. *)
Theorem commands_reply_static_text u m s :
  message u = Some m ->
  (exists o,
     start env u s =
       (outcome_of o,
        mkSys (self s)
          (record (Called (reply_text (chat_id m) start_text (Some "Markdown")) o)
             (world s)))) /\
  (exists o,
     help_command env u s =
       (outcome_of o,
        mkSys (self s)
          (record (Called (reply_text (chat_id m) help_text (Some "Markdown")) o)
             (world s)))) /\
  start_text <> EmptyString /\ help_text <> EmptyString.
Proof.
  intros Hm. unfold start, help_command. unfold_m. rewrite Hm.
  split; [|split; [|split; discriminate]].
  - destruct (ext_call env _ _) as [e|] eqn:E;
      [exists (Some e) | exists None]; reflexivity.
  - destruct (ext_call env _ _) as [e|] eqn:E;
      [exists (Some e) | exists None]; reflexivity.
Qed.

(** X10: on an update without a message (an edited message, for
    instance), [/start] and [/help] raise [AttributeError] where
    [/reset] returns; none of the three sends anything or changes the
    state. *)
Theorem commands_without_message u s :
  message u = None ->
  start env u s = (Raise (none_has_no "reply_text"), s) /\
  help_command env u s = (Raise (none_has_no "reply_text"), s) /\
  reset_command env u s = (Ret tt, s).
Proof.
  intros Hm. unfold start, help_command, reset_command, message_reply_text.
  rewrite Hm. done.
Qed.

(** *** [_get_session] *)

(** X11: [_get_session] touches no entry but the one asked for.  When
    it returns, the entry of the conversation is the handle returned:
    the registered one, with no effect at all, or a new session object
    for [str(chat_id)] in [sessions.db] under a new handle.  It raises
    only what the construction of the session raised, and then
    registers nothing: the lookup after the insertion cannot fail. *)
Theorem get_session_outcome chat s out s' :
  _get_session env chat s = (out, s') ->
  (forall c, c <> chat -> sessions (self s') !! c = sessions (self s) !! c) /\
  match out with
  | Ret r =>
      sessions (self s') !! chat = Some r /\
      (forall r0, sessions (self s) !! chat = Some r0 -> r0 = r /\ s' = s) /\
      (sessions (self s) !! chat = None ->
       r = next_ref (world s) /\
       heap (world s') !! r = Some (mkSQLiteSession (str chat) "sessions.db") /\
       emitted (world s) (world s')
         [Called (SQLiteSession_new (str chat) "sessions.db") None])
  | Raise e =>
      sessions (self s) !! chat = None /\
      self s' = self s /\
      heap (world s') = heap (world s) /\
      emitted (world s) (world s')
        [Called (SQLiteSession_new (str chat) "sessions.db") (Some e)]
  end.
Proof.
  destruct (sessions (self s) !! chat) as [r0|] eqn:Hs.
  - rewrite (get_session_present env chat s r0 Hs). intros [= <- <-].
    repeat split; try done. all: congruence.
  - rewrite (get_session_absent env chat s Hs).
    destruct (ext_call env _ _) as [e|] eqn:E; intros [= <- <-]; simpl.
    + by repeat split.
    + split; [intros c Hne; by rewrite lookup_insert_ne|].
      rewrite !lookup_insert_eq. repeat split; try done.
Qed.

(** X12: two conversations never share a session: in every reachable
    state the registry is injective. *)
Theorem sessions_not_shared s chat1 chat2 r :
  reachable env strip s ->
  sessions (self s) !! chat1 = Some r ->
  sessions (self s) !! chat2 = Some r ->
  chat1 = chat2.
Proof.
  intros Hreach. apply registry_ok_no_alias.
  exact (reachable_ok env strip s Hreach).
Qed.

(** *** [/reset] and what follows it *)

Lemma reset_command_present u m s r :
  message u = Some m ->
  sessions (self s) !! chat_id m = Some r ->
  ext_call env (trace (world s)) (clear_session r) = None ->
  exists o,
    reset_command env u s =
      (outcome_of o,
       mkSys (with_sessions (self s) (delete (chat_id m) (sessions (self s))))
         (record (Called (reply_text (chat_id m) reset_text None) o)
            (record (Called (clear_session r) None) (world s)))).
Proof.
  intros Hm Hs Hc. unfold reset_command. rewrite Hm. unfold_m. rewrite Hm, Hs.
  simpl. rewrite Hc. simpl.
  destruct (ext_call env _ (reply_text _ _ _)) as [e|] eqn:E;
    [exists (Some e) | exists None]; reflexivity.
Qed.

Lemma reset_command_absent u m s :
  message u = Some m ->
  sessions (self s) !! chat_id m = None ->
  exists o,
    reset_command env u s =
      (outcome_of o,
       mkSys (self s)
         (record (Called (reply_text (chat_id m) reset_text None) o) (world s))).
Proof.
  intros Hm Hs. unfold reset_command. rewrite Hm. unfold_m. rewrite Hm, Hs.
  simpl.
  destruct (ext_call env _ (reply_text _ _ _)) as [e|] eqn:E;
    [exists (Some e) | exists None]; by destruct s as [[]].
Qed.

(** X13: after a [/reset] that cleared the session of a conversation,
    the next text message of that conversation makes the handler build
    a new session, and the agent runs with that one: its handle is not
    the old one nor any handle the registry held. *)
Theorem message_after_reset_gets_new_session
    u m u' m' s r out s1 out' s2 evs a i r' ro :
  reachable env strip s ->
  message u = Some m ->
  message u' = Some m' ->
  chat_id m' = chat_id m ->
  sessions (self s) !! chat_id m = Some r ->
  ext_call env (trace (world s)) (clear_session r) = None ->
  reset_command env u s = (out, s1) ->
  handle_message env strip u' s1 = (out', s2) ->
  emitted (world s1) (world s2) evs ->
  In (Ran a i r' ro) evs ->
  r' <> r /\ ~ live s r' /\
  In (Called (SQLiteSession_new (str (chat_id m)) "sessions.db") None) evs /\
  sessions (self s2) !! chat_id m = Some r'.
Proof.
  intros Hreach Hm Hm' Hchat Hs Hclear Hreset Hrun Hev Hin.
  apply (reachable_ok env strip) in Hreach.
  destruct (reset_command_present u m s r Hm Hs Hclear) as [o Hr].
  rewrite Hr in Hreset. injection Hreset as <- <-.
  set (w1 := record _ (record _ (world s))) in *.
  assert (Hfresh : forall c r0, sessions (self s) !! c = Some r0 ->
                                r0 <> next_ref w1).
  { intros c r0 Hc. destruct (Hreach _ _ Hc) as [_ Hlt]. simpl. lia. }
  clearbody w1.
  destruct (update_text_cases u') as [Hno | (m0 & t & Hm0 & Ht & Htruthy)].
  { rewrite (handle_message_skips u' _ Hno) in Hrun. injection Hrun as <- <-.
    new_events Hev. destruct Hin. }
  assert (Heq : m0 = m') by congruence. subst m0.
  run_handle_message Hrun Hm' Ht Htruthy.
  all: try match goal with
           | H : sessions (self (mkSys _ _)) !! _ = Some _ |- _ =>
               simpl in H; rewrite Hchat, lookup_delete_eq in H; discriminate
           end.
  all: new_events Hev; simpl in Hin.
  all: intuition (try discriminate); simplify_eq.
  all: try (by eapply Hfresh; [exact Hs | reflexivity]).
  all: try match goal with
           | H : live _ _ |- _ =>
               destruct H as [c Hc]; by eapply Hfresh; [exact Hc | reflexivity]
           end.
  all: try (rewrite Hchat; simpl; tauto).
  all: simpl; rewrite Hchat; by rewrite lookup_insert_eq.
Qed.

(** X14: a second [/reset] in a row finds nothing to clear: it calls
    no session, leaves the registry as the first one left it and
    still confirms. *)
Theorem reset_command_twice u m s out s1 :
  message u = Some m ->
  (forall r, sessions (self s) !! chat_id m = Some r ->
             ext_call env (trace (world s)) (clear_session r) = None) ->
  reset_command env u s = (out, s1) ->
  exists o,
    reset_command env u s1 =
      (outcome_of o,
       mkSys (self s1)
         (record (Called (reply_text (chat_id m) reset_text None) o) (world s1))).
Proof.
  intros Hm Hclear Hreset.
  apply (reset_command_absent u m s1 Hm).
  destruct (sessions (self s) !! chat_id m) as [r|] eqn:Hs.
  - destruct (reset_command_present u m s r Hm Hs (Hclear r eq_refl)) as [o Hr].
    rewrite Hr in Hreset. injection Hreset as <- <-. simpl.
    apply lookup_delete_eq.
  - destruct (reset_command_absent u m s Hm Hs) as [o Hr].
    rewrite Hr in Hreset. by injection Hreset as <- <-.
Qed.

(** *** [run] *)

(** Runs [run], one goal for each way the environment can answer. *)
Ltac run_run Hrun :=
  unfold run, shutdown_sequence, add_handler in Hrun; unfold_m;
  simpl in Hrun;
  destruct (application (self _)) as [app|] eqn:Happ; simpl in Hrun;
    [ rewrite ?Happ in Hrun | step_env Hrun ];
  repeat step_env Hrun;
  injection Hrun as <- <-.

(** X15: when a step of the startup of [run] raises (building the
    application, [initialize], [start], [start_polling]), [run] raises
    that exception at once: the failing call is its last one, so it
    neither waits nor runs any step of the shutdown; the registry is
    untouched. *)
Theorem run_startup_failure s out s' evs c e :
  run env s = (out, s') ->
  emitted (world s) (world s') evs ->
  In (Called c (Some e)) evs ->
  is_startup_call c = true ->
  out = Raise e /\
  (exists pre, evs = pre ++ [Called c (Some e)]) /\
  forallb (fun ev => negb (after_startup ev)) evs = true /\
  sessions (self s') = sessions (self s).
Proof.
  intros Hrun Hev Hin Hc.
  run_run Hrun.
  all: new_events Hev; simpl in Hin.
  all: intuition (try discriminate); simplify_eq; try discriminate.
  all: first [reflexivity | split_around ltac:(reflexivity)].
Qed.

(** X16: how [run] ends once it has reached the polling wait.  When
    the shutdown completes, [run] returns if the wait returned or was
    ended by [KeyboardInterrupt] or [SystemExit], and raises the
    exception of the wait otherwise; when a step of the shutdown
    raises, [run] raises that exception instead. *)
Theorem run_outcome s out s' evs ended :
  run env s = (out, s') ->
  emitted (world s) (world s') evs ->
  In (Called stop_event_wait ended) evs ->
  (In (Called app_shutdown None) evs ->
   out = match ended with
         | None => Ret tt
         | Some e => if is_interrupt e then Ret tt else Raise e
         end) /\
  (forall c e,
     In (Called c (Some e)) evs ->
     is_shutdown_call (Called c (Some e)) = true ->
     out = Raise e).
Proof.
  intros Hrun Hev Hin.
  run_run Hrun.
  all: new_events Hev; simpl in Hin.
  all: split; [intros Hdone; simpl in Hdone | intros c e Hc Hshut; simpl in Hc].
  all: intuition (try discriminate); simplify_eq; try discriminate.
  all: simpl;
    try match goal with
        | H : is_interrupt ?e = _ |- context [is_interrupt ?e] => rewrite H
        end;
    reflexivity.
Qed.

(** X17: [run] builds the transport application only when the bot has
    none: then the application gets the token of the bot and the four
    handlers, in order; a bot that has its application keeps it as it
    is, with nothing built or registered again.  A failed build leaves
    the bot without application.  [run] never touches the registry. *)
Theorem run_builds_application_once s out s' evs :
  run env s = (out, s') ->
  emitted (world s) (world s') evs ->
  sessions (self s') = sessions (self s) /\
  (forall app,
     application (self s) = Some app ->
     application (self s') = Some app /\
     forallb (fun ev => negb (is_build ev)) evs = true) /\
  (application (self s) = None ->
   exists o,
     In (Called (Application_build (telegram_token (self s))) o) evs /\
     application (self s') =
       match o with
       | None => Some (mkApplication (telegram_token (self s)) registered_handlers)
       | Some _ => None
       end).
Proof.
  intros Hrun Hev.
  run_run Hrun.
  all: new_events Hev; simpl.
  all: split; [reflexivity|]; split.
  all: try (intros app' Heq; by injection Heq as <-).
  all: try discriminate.
  all: intros _; eexists; split;
    [ right; left; reflexivity | simpl; first [reflexivity | exact Happ] ].
Qed.

(** *** [main] *)

Lemma init_raises srv w e w' :
  OrdersBot_init srv w = (Raise e, w') -> e = token_error.
Proof.
  unfold OrdersBot_init, load_dotenv, os_getenv. unfold_m. simpl.
  destruct (_ !! _) as [tok|]; [|by intros [= <- _]].
  destruct (truthy tok); simpl; [done | by intros [= <- _]].
Qed.

(** What leaves the [async with] block of [main]: the configuration
    error, or an exception of [bot.run()] that is not an [Exception]. *)
Lemma main_with_server_raises srv w e w' :
  main_with_server env srv w = (Raise e, w') ->
  isinstance_Exception e = true ->
  e = token_error.
Proof.
  unfold main_with_server, logger_info, logger_exception, bind, try_finally,
    try_except. simpl.
  destruct (OrdersBot_init srv _) as [[bot|e0] w1] eqn:Hinit.
  - destruct (with_self bot (run env) w1) as [[[]|e1] w2]; simpl; [done|].
    destruct (isinstance_Exception e1) eqn:He1; simpl; [done|].
    intros [= <- _]. congruence.
  - intros [= <- _] _. by eapply init_raises.
Qed.

(** X18: the tool subprocess is closed on every way out of [main].
    When it cannot be started, [main] raises and does nothing else;
    once it is started, the last call of [main] is the exit of that
    same subprocess, whatever happened in between, and an exception of
    the exit is the one [main] raises. *)
Theorem main_closes_subprocess w out w' evs :
  main env w = (out, w') ->
  emitted w w' evs ->
  let vars := environ w ∪ dotenv w in
  let command := default_of (vars !! "ORDERS_MCP_COMMAND") "python" in
  let script := default_of (vars !! "ORDERS_MCP_SCRIPT") "orders_mcp_server.py" in
  let srv := mkMCPServerStdio "Orders MCP Server" command [script] true in
  let started :=
    Logged INFO ("Avvio MCPServerStdio: " +:+ command +:+ " " +:+ script) None in
  match ext_call env (trace w ++ [started]) (MCPServerStdio_aenter srv) with
  | Some e =>
      out = Raise e /\
      evs = [started; Called (MCPServerStdio_aenter srv) (Some e)]
  | None =>
      exists mid o,
        evs = [started; Called (MCPServerStdio_aenter srv) None] ++ mid ++
              [Called (MCPServerStdio_aexit srv) o] /\
        (forall e, o = Some e -> out = Raise e)
  end.
Proof.
  intros Hmain Hev vars command script srv started.
  rewrite main_start in Hmain. fold vars command script srv in Hmain.
  simpl in Hmain. fold started in Hmain.
  destruct (ext_call env _ (MCPServerStdio_aenter srv)) as [e|] eqn:Eenter.
  - injection Hmain as <- <-. split; [done|].
    unfold emitted in Hev. simpl in Hev. rewrite <- app_assoc in Hev.
    by apply app_inv_head in Hev.
  - unfold try_finally in Hmain.
    match type of Hmain with
    | context [main_with_server env srv ?w2] =>
        destruct (extends_main_with_server env srv w2) as [mid Hmid];
        destruct (main_with_server env srv w2) as [r w3]
    end.
    simpl in Hmid. unfold extern in Hmain.
    destruct (ext_call env (trace w3) (MCPServerStdio_aexit srv)) as [e|] eqn:Eexit;
      injection Hmain as <- <-; unfold emitted in Hev; simpl in Hev;
      rewrite Hmid, <- !app_assoc in Hev; apply app_inv_head in Hev;
      simpl in Hev; subst evs.
    + exists mid, (Some e). split; [done|]. by intros ? [= <-].
    + exists mid, None. split; [done|]. discriminate.
Qed.

(** X19: an [Exception] raised by [bot.run()] never leaves [main]: the
    only instances of [Exception] that [main] raises are the
    configuration error of the missing token and what the start or the
    exit of the subprocess raised. *)
Theorem main_contains_run_exceptions w e w' evs :
  main env w = (Raise e, w') ->
  emitted w w' evs ->
  isinstance_Exception e = true ->
  e = token_error \/
  exists srv,
    In (Called (MCPServerStdio_aenter srv) (Some e)) evs \/
    In (Called (MCPServerStdio_aexit srv) (Some e)) evs.
Proof.
  intros Hmain Hev Hexc.
  rewrite main_start in Hmain. simpl in Hmain.
  destruct (ext_call env _ (MCPServerStdio_aenter _)) as [e0|] eqn:Eenter.
  - simplify_eq. right. eexists. left.
    unfold emitted in Hev. simpl in Hev. rewrite <- app_assoc in Hev.
    apply app_inv_head in Hev. subst evs. simpl. tauto.
  - unfold try_finally in Hmain.
    match type of Hmain with
    | context [main_with_server env ?srv ?w2] =>
        destruct (extends_main_with_server env srv w2) as [mid Hmid];
        destruct (main_with_server env srv w2) as [r w3] eqn:Hbody
    end.
    simpl in Hmid. unfold extern in Hmain.
    destruct (ext_call env (trace w3) (MCPServerStdio_aexit _)) as [e1|] eqn:Eexit;
      simplify_eq.
    + right. eexists. right.
      unfold emitted in Hev. simpl in Hev.
      rewrite Hmid, <- !app_assoc in Hev. apply app_inv_head in Hev.
      subst evs. simpl. rewrite in_app_iff. simpl. tauto.
    + left. by eapply main_with_server_raises.
Qed.

(** *** The bot object *)

(** What [run] does to the bot object: nothing but to set the
    application when there is none. *)
Lemma run_self s :
  self (snd (run env s)) =
    with_application (self s) (application (self (snd (run env s)))) /\
  (forall app,
     application (self s) = Some app ->
     application (self (snd (run env s))) = Some app) /\
  (application (self s) = None ->
   application (self (snd (run env s))) = None \/
   application (self (snd (run env s))) =
     Some (mkApplication (telegram_token (self s)) registered_handlers)).
Proof.
  destruct (run env s) as [out s'] eqn:Hrun. simpl.
  run_run Hrun.
  all: simpl; split; [by destruct (self s) | split].
  all: try (intros app' Heq; by injection Heq as <-).
  all: try discriminate.
  all: intros _; first [by left | by right].
Qed.

(** X20: the configuration of the bot is fixed at construction.  In
    every state of the bot object, from its construction on and
    through any operations and calls of [run], the token is not empty,
    the agent is the [OrderAssistant] agent attached to the bot's one
    tool server, and the application is absent or the one [run] built,
    with the bot's token and the four handlers.  In any state
    whatever, with or without application, no operation changes the
    token, the server, the agent or the application (operations only
    change the registry), and [run] changes the application only. *)
Theorem bot_configuration_immutable s :
  started env strip s ->
  (telegram_token (self s) <> EmptyString /\
   agent (self s) =
     mkAgent "OrderAssistant" agent_instructions [mcp_server (self s)] /\
   (application (self s) = None \/
    application (self s) =
      Some (mkApplication (telegram_token (self s)) registered_handlers))) /\
  (forall s0 o,
     self (step env strip s0 o) =
       with_sessions (self s0) (sessions (self (step env strip s0 o)))) /\
  (forall s0,
     self (snd (run env s0)) =
       with_application (self s0) (application (self (snd (run env s0))))).
Proof.
  intros Hstarted. split; [|split].
  - induction Hstarted as [srv w b w' Hinit | s o _ IH | s _ IH].
    + unfold OrdersBot_init, load_dotenv, os_getenv in Hinit. unfold_m.
      simpl in Hinit. destruct (_ !! _) as [tok|]; [|done].
      destruct (truthy tok) eqn:Htok; simpl in Hinit; [|done].
      injection Hinit as <- <-. simpl. split; [|split; [done | by left]].
      by apply truthy_nonempty.
    + destruct (step_change env strip o s) as [Hb _ _ | c _ Hb _ _ | u m _ _ Hb _ _];
        rewrite Hb; simpl; try done.
    + destruct (run_self s) as (Hself & Hkeep & Hbuild).
      destruct IH as (Htok & Hagent & Happ).
      rewrite Hself at 1 2 3 5. simpl. split; [done | split; [done|]].
      destruct Happ as [Hnone | Hsome].
      * destruct (Hbuild Hnone) as [-> | ->]; [by left | right].
        by rewrite Hself.
      * rewrite (Hkeep _ Hsome). right. by rewrite Hself.
  - intros s0 o.
    destruct (step_change env strip o s0) as [Hb _ _ | c _ Hb _ _ | u m _ _ Hb _ _];
      rewrite Hb; simpl; try done.
    by destruct (self s0).
  - intros s0. apply run_self.
Qed.

End Further.

(** ** The further statements at concrete inputs *)

Lemma handle_message_typing_failure_witness :
  asked env_no_typing =
    (Raise (OtherException "NetworkError"),
     mkSys (self sys0)
       (record (Called (send_action 42 TYPING) (Some (OtherException "NetworkError")))
          (record (inbound_log (mkMessage 42 (Some price_question))
                     (strip_ascii price_question))
             (world sys0)))).
Proof.
  apply (handle_message_typing_failure env_no_typing strip_ascii
           (update42 price_question) (mkMessage 42 (Some price_question))
           price_question sys0 (OtherException "NetworkError")).
  - reflexivity.
  - reflexivity.
  - discriminate.
  - reflexivity.
Defined.

Lemma handle_message_reply_failure_witness :
  exists pre o,
    events_of (asked env_bad_markdown) =
    pre ++ [Called (reply_text 42 "Ecco i prezzi richiesti." (Some "Markdown"))
              (Some (OtherException "BadRequest"));
            error_log (OtherException "BadRequest");
            Called (reply_text 42 apology_text None) o] /\
    fst (asked env_bad_markdown) = outcome_of o.
Proof.
  apply (handle_message_reply_failure env_bad_markdown strip_ascii
           (update42 price_question) sys0
           (fst (asked env_bad_markdown)) (snd (asked env_bad_markdown))).
  - vm_compute. reflexivity.
  - reflexivity.
  - vm_compute. tauto.
  - reflexivity.
Defined.

Lemma handle_message_session_failure_witness :
  exists m pre o,
    message (update42 price_question) = Some m /\
    "42" = str (chat_id m) /\
    events_of (asked env_no_store) =
    pre ++ [Called (SQLiteSession_new "42" "sessions.db")
              (Some (OtherException "OperationalError"));
            error_log (OtherException "OperationalError");
            Called (reply_text (chat_id m) apology_text None) o] /\
    fst (asked env_no_store) = outcome_of o /\
    forallb (fun ev => negb (is_run ev)) (events_of (asked env_no_store)) = true /\
    self (snd (asked env_no_store)) = self sys0 /\
    heap (world (snd (asked env_no_store))) = heap (world sys0).
Proof.
  apply (handle_message_session_failure env_no_store strip_ascii
           (update42 price_question) sys0
           (fst (asked env_no_store)) (snd (asked env_no_store))).
  - vm_compute. reflexivity.
  - reflexivity.
  - vm_compute. tauto.
  - reflexivity.
Defined.

Lemma handle_message_agent_interrupted_witness :
  exists m pre,
    message (update42 price_question) = Some m /\
    events_of (asked env_agent_cancelled) =
    pre ++ [Ran (agent bot0) price_question 0 (Raise CancelledError)] /\
    fst (asked env_agent_cancelled) = Raise CancelledError /\
    forallb (fun ev => negb (is_reply ev))
      (events_of (asked env_agent_cancelled)) = true /\
    sessions (self (snd (asked env_agent_cancelled))) !! chat_id m = Some 0%nat.
Proof.
  apply (handle_message_agent_interrupted env_agent_cancelled strip_ascii
           (update42 price_question) sys0
           (fst (asked env_agent_cancelled)) (snd (asked env_agent_cancelled))).
  - vm_compute. reflexivity.
  - reflexivity.
  - vm_compute. tauto.
  - reflexivity.
Defined.

Lemma handle_message_runs_agent_once_witness :
  (length (List.filter is_run (events_of (asked env0))) <= 1)%nat /\
  forall a i r ro,
    In (Ran a i r ro) (events_of (asked env0)) ->
    exists m t,
      message (update42 price_question) = Some m /\ text m = Some t /\
      a = agent (self sys0) /\ i = strip_ascii t /\
      sessions (self (snd (asked env0))) !! chat_id m = Some r.
Proof.
  apply (handle_message_runs_agent_once env0 strip_ascii
           (update42 price_question) sys0 (fst (asked env0))).
  - vm_compute. reflexivity.
  - reflexivity.
Defined.

(** A text of white space only reaches the agent as the empty text. *)
Lemma handle_message_reaches_agent_witness :
  exists o rest,
    emitted (world sys1)
      (world (snd (handle_message env0 strip_ascii blank_update sys1)))
      ([inbound_log (mkMessage 42 (Some "   ")) (strip_ascii "   ");
        Called (send_action 42 TYPING) None;
        Ran (agent (self sys1)) (strip_ascii "   ") 0 o] ++ rest).
Proof.
  apply (handle_message_reaches_agent env0 strip_ascii blank_update
           (mkMessage 42 (Some "   ")) "   " sys1 0%nat).
  - reflexivity.
  - reflexivity.
  - discriminate.
  - vm_compute. reflexivity.
  - reflexivity.
Defined.

Lemma handle_message_addresses_sender_witness :
  forallb (to_chat 42) (events_of (asked env_bad_markdown)) = true /\
  (length (List.filter is_reply (events_of (asked env_bad_markdown))) <= 2)%nat /\
  forallb (fun ev => negb (is_clear ev)) (events_of (asked env_bad_markdown)) = true.
Proof.
  apply (handle_message_addresses_sender env_bad_markdown strip_ascii
           (update42 price_question) (mkMessage 42 (Some price_question)) sys0
           (fst (asked env_bad_markdown)) (snd (asked env_bad_markdown))).
  - reflexivity.
  - vm_compute. reflexivity.
  - reflexivity.
Defined.

Lemma handle_message_frame_witness :
  (forall chat r,
     sessions (self sys1) !! chat = Some r ->
     sessions (self (snd (handle_message env0 strip_ascii (update7 "Ciao") sys1)))
       !! chat = Some r) /\
  (forall m chat,
     message (update7 "Ciao") = Some m -> chat <> chat_id m ->
     sessions (self (snd (handle_message env0 strip_ascii (update7 "Ciao") sys1)))
       !! chat = sessions (self sys1) !! chat) /\
  self (snd (handle_message env0 strip_ascii (update7 "Ciao") sys1)) =
    with_sessions (self sys1)
      (sessions (self (snd (handle_message env0 strip_ascii (update7 "Ciao") sys1)))).
Proof.
  apply (handle_message_frame env0 strip_ascii (update7 "Ciao") sys1
           (fst (handle_message env0 strip_ascii (update7 "Ciao") sys1))).
  vm_compute. reflexivity.
Defined.

Lemma commands_reply_static_text_witness :
  (exists o,
     start env0 (update42 "/start") sys1 =
       (outcome_of o,
        mkSys (self sys1)
          (record (Called (reply_text 42 start_text (Some "Markdown")) o)
             (world sys1)))) /\
  (exists o,
     help_command env0 (update42 "/start") sys1 =
       (outcome_of o,
        mkSys (self sys1)
          (record (Called (reply_text 42 help_text (Some "Markdown")) o)
             (world sys1)))) /\
  start_text <> EmptyString /\ help_text <> EmptyString.
Proof.
  apply (commands_reply_static_text env0 (update42 "/start")
           (mkMessage 42 (Some "/start")) sys1).
  reflexivity.
Defined.

Lemma commands_without_message_witness :
  start env0 (mkUpdate None) sys1 = (Raise (none_has_no "reply_text"), sys1) /\
  help_command env0 (mkUpdate None) sys1 = (Raise (none_has_no "reply_text"), sys1) /\
  reset_command env0 (mkUpdate None) sys1 = (Ret tt, sys1).
Proof.
  apply (commands_without_message env0 (mkUpdate None) sys1).
  reflexivity.
Defined.

Lemma get_session_outcome_witness :
  (forall c, c <> 7 ->
     sessions (self (snd (_get_session env0 7 sys1))) !! c =
     sessions (self sys1) !! c) /\
  match fst (_get_session env0 7 sys1) with
  | Ret r =>
      sessions (self (snd (_get_session env0 7 sys1))) !! 7 = Some r /\
      (forall r0, sessions (self sys1) !! 7 = Some r0 ->
                  r0 = r /\ snd (_get_session env0 7 sys1) = sys1) /\
      (sessions (self sys1) !! 7 = None ->
       r = next_ref (world sys1) /\
       heap (world (snd (_get_session env0 7 sys1))) !! r =
         Some (mkSQLiteSession (str 7) "sessions.db") /\
       emitted (world sys1) (world (snd (_get_session env0 7 sys1)))
         [Called (SQLiteSession_new (str 7) "sessions.db") None])
  | Raise e =>
      sessions (self sys1) !! 7 = None /\
      self (snd (_get_session env0 7 sys1)) = self sys1 /\
      heap (world (snd (_get_session env0 7 sys1))) = heap (world sys1) /\
      emitted (world sys1) (world (snd (_get_session env0 7 sys1)))
        [Called (SQLiteSession_new (str 7) "sessions.db") (Some e)]
  end.
Proof.
  apply (get_session_outcome env0 7 sys1).
  vm_compute. reflexivity.
Defined.

Lemma sessions_not_shared_witness : 42 = 42.
Proof.
  apply (sessions_not_shared env0 strip_ascii
           (steps env0 strip_ascii traffic sys1) 42 42 0%nat).
  - apply reachable_steps, sys1_reachable.
  - vm_compute. reflexivity.
  - vm_compute. reflexivity.
Defined.

(** Conversation 42 resets and asks again: the agent gets session 1. *)
Lemma message_after_reset_gets_new_session_witness :
  1%nat <> 0%nat /\ ~ live sys1 1 /\
  In (Called (SQLiteSession_new (str 42) "sessions.db") None)
    [inbound_log (mkMessage 42 (Some price_question)) price_question;
     Called (send_action 42 TYPING) None;
     Called (SQLiteSession_new "42" "sessions.db") None;
     Ran (agent bot0) price_question 1 (Ret (Some "Ecco i prezzi richiesti."));
     Called (reply_text 42 "Ecco i prezzi richiesti." (Some "Markdown")) None] /\
  sessions
    (self (snd (handle_message env0 strip_ascii (update42 price_question)
                  (snd (reset_command env0 (update42 "/reset") sys1)))))
    !! 42 = Some 1%nat.
Proof.
  apply (message_after_reset_gets_new_session env0 strip_ascii
           (update42 "/reset") (mkMessage 42 (Some "/reset"))
           (update42 price_question) (mkMessage 42 (Some price_question))
           sys1 0%nat
           (fst (reset_command env0 (update42 "/reset") sys1))
           (snd (reset_command env0 (update42 "/reset") sys1))
           (fst (handle_message env0 strip_ascii (update42 price_question)
                   (snd (reset_command env0 (update42 "/reset") sys1))))
           (snd (handle_message env0 strip_ascii (update42 price_question)
                   (snd (reset_command env0 (update42 "/reset") sys1))))
           _ (agent bot0) price_question 1%nat
           (Ret (Some "Ecco i prezzi richiesti."))).
  - exact sys1_reachable.
  - reflexivity.
  - reflexivity.
  - reflexivity.
  - vm_compute. reflexivity.
  - reflexivity.
  - vm_compute. reflexivity.
  - vm_compute. reflexivity.
  - vm_compute. reflexivity.
  - simpl. tauto.
Defined.

Lemma reset_command_twice_witness :
  exists o,
    reset_command env0 (update42 "/reset")
      (snd (reset_command env0 (update42 "/reset") sys1)) =
      (outcome_of o,
       mkSys (self (snd (reset_command env0 (update42 "/reset") sys1)))
         (record (Called (reply_text 42 reset_text None) o)
            (world (snd (reset_command env0 (update42 "/reset") sys1))))).
Proof.
  apply (reset_command_twice env0 (update42 "/reset")
           (mkMessage 42 (Some "/reset")) sys1
           (fst (reset_command env0 (update42 "/reset") sys1))).
  - reflexivity.
  - intros r _. reflexivity.
  - vm_compute. reflexivity.
Defined.

Lemma run_startup_failure_witness :
  fst (run env_no_network sys0) = Raise (OtherException "NetworkError") /\
  (exists pre,
     events_of (run env_no_network sys0) =
     pre ++ [Called app_initialize (Some (OtherException "NetworkError"))]) /\
  forallb (fun ev => negb (after_startup ev))
    (events_of (run env_no_network sys0)) = true /\
  sessions (self (snd (run env_no_network sys0))) = sessions (self sys0).
Proof.
  apply (run_startup_failure env_no_network sys0
           (fst (run env_no_network sys0)) (snd (run env_no_network sys0))).
  - vm_compute. reflexivity.
  - reflexivity.
  - vm_compute. tauto.
  - reflexivity.
Defined.

Lemma run_outcome_witness :
  (In (Called app_shutdown None) (events_of (run env_cancelled sys0)) ->
   fst (run env_cancelled sys0) =
     if is_interrupt CancelledError then Ret tt else Raise CancelledError) /\
  (forall c e,
     In (Called c (Some e)) (events_of (run env_cancelled sys0)) ->
     is_shutdown_call (Called c (Some e)) = true ->
     fst (run env_cancelled sys0) = Raise e).
Proof.
  apply (run_outcome env_cancelled sys0
           (fst (run env_cancelled sys0)) (snd (run env_cancelled sys0))
           (events_of (run env_cancelled sys0)) (Some CancelledError)).
  - vm_compute. reflexivity.
  - reflexivity.
  - vm_compute. tauto.
Defined.

Lemma run_builds_application_once_witness :
  sessions (self (snd (run env_cancelled sys0))) = sessions (self sys0) /\
  (forall app,
     application (self sys0) = Some app ->
     application (self (snd (run env_cancelled sys0))) = Some app /\
     forallb (fun ev => negb (is_build ev))
       (events_of (run env_cancelled sys0)) = true) /\
  (application (self sys0) = None ->
   exists o,
     In (Called (Application_build (telegram_token (self sys0))) o)
       (events_of (run env_cancelled sys0)) /\
     application (self (snd (run env_cancelled sys0))) =
       match o with
       | None => Some (mkApplication (telegram_token (self sys0)) registered_handlers)
       | Some _ => None
       end).
Proof.
  apply (run_builds_application_once env_cancelled sys0
           (fst (run env_cancelled sys0))).
  - vm_compute. reflexivity.
  - reflexivity.
Defined.

Lemma main_closes_subprocess_witness :
  exists mid o,
    trace (snd (main env_no_network world0)) =
      [Logged INFO "Avvio MCPServerStdio: python orders_mcp_server.py" None;
       Called (MCPServerStdio_aenter srv0) None] ++ mid ++
      [Called (MCPServerStdio_aexit srv0) o] /\
    (forall e, o = Some e -> fst (main env_no_network world0) = Raise e).
Proof.
  apply (main_closes_subprocess env_no_network world0
           (fst (main env_no_network world0)) (snd (main env_no_network world0))
           (trace (snd (main env_no_network world0)))).
  - vm_compute. reflexivity.
  - reflexivity.
Defined.

Lemma main_contains_run_exceptions_witness :
  token_error = token_error \/
  exists srv,
    In (Called (MCPServerStdio_aenter srv) (Some token_error))
      (trace (snd (main env0 world_without_token))) \/
    In (Called (MCPServerStdio_aexit srv) (Some token_error))
      (trace (snd (main env0 world_without_token))).
Proof.
  apply (main_contains_run_exceptions env0 world_without_token token_error
           (snd (main env0 world_without_token))).
  - vm_compute. reflexivity.
  - reflexivity.
  - reflexivity.
Defined.

(** The bot [sys3] holds two conversations and the application that
    [run] built. *)
Lemma sys3_started : started env0 strip_ascii sys3.
Proof.
  apply started_run, started_step, started_step,
    (started_init env0 strip_ascii srv0 world0).
  reflexivity.
Qed.

Lemma bot_configuration_immutable_witness :
  (application (self sys3) =
     Some (mkApplication "123:abc" registered_handlers) /\
   sessions (self sys3) = {[42 := 0%nat; 7 := 1%nat]}) /\
  (telegram_token (self sys3) <> EmptyString /\
   agent (self sys3) =
     mkAgent "OrderAssistant" agent_instructions [mcp_server (self sys3)] /\
   (application (self sys3) = None \/
    application (self sys3) =
      Some (mkApplication (telegram_token (self sys3)) registered_handlers))) /\
  (forall s0 o,
     self (step env0 strip_ascii s0 o) =
       with_sessions (self s0) (sessions (self (step env0 strip_ascii s0 o)))) /\
  (forall s0,
     self (snd (run env0 s0)) =
       with_application (self s0) (application (self (snd (run env0 s0))))).
Proof.
  split; [split; vm_compute; reflexivity|].
  apply (bot_configuration_immutable env0 strip_ascii sys3).
  exact sys3_started.
Defined.

(** A message and a [/reset] on the running bot leave its application
    in place. *)
Example operations_keep_application :
  application
    (self (steps env0 strip_ascii
             [Op_message (update42 "Grazie"); Op_reset (update7 "/reset")] sys3)) =
    Some (mkApplication "123:abc" registered_handlers) /\
  sessions
    (self (steps env0 strip_ascii
             [Op_message (update42 "Grazie"); Op_reset (update7 "/reset")] sys3)) =
    {[42 := 0%nat]}.
Proof. vm_compute. split; reflexivity. Qed.

(** The startup failure of [run] stays inside [main]: it is logged,
    the subprocess is closed and [main] returns. *)
Example main_no_network :
  main env_no_network world0 =
    (Ret tt,
     mkWorld {["TELEGRAM_BOT_TOKEN" := "123:abc"]} ∅ ∅ 0
       [Logged INFO "Avvio MCPServerStdio: python orders_mcp_server.py" None;
        Called (MCPServerStdio_aenter srv0) None;
        Logged INFO "MCP server avviato, creo il bot OrdersBot..." None;
        Logged INFO "Inizializzo OrdersBot..." None;
        Called (Application_build "123:abc") None;
        Called app_initialize (Some (OtherException "NetworkError"));
        Logged ERROR "Il bot si è fermato a causa di un errore"
          (Some (OtherException "NetworkError"));
        Logged INFO "Chiusura OrdersBot completata." None;
        Called (MCPServerStdio_aexit srv0) None]).
Proof. vm_compute. reflexivity. Qed.
